(* ===== verification/_CoqProject ===== *)
-Q . S2P
Prelude.v
PyStr.v
Calendar.v
Pandas.v
Tweepy.v
Fetcher.v
Aggregator.v
Ranker.v
Handler.v
Machine.v
Server.v
