(* ===== verification/Prelude.v ===== *)
(** * Verification of the tweetapp Flask application (src/app.py)

    ** The program
    [src/app.py] is one Flask view over two libraries, tweepy and pandas.
    A POST to [/] carrying a form field [user_id] runs, in this order:
    - [get_tweets_df] (lines 57-76): a [for] loop over a tweepy [Cursor] on
      [api.user_timeline(screen_name=user_id, exclude_replies=True)]; for
      each status, inside [try: ... except Exception as e: print(e)], it
      skips the status if ["RT @"] occurs in its text, and otherwise appends
      the row [(id, created_at, text.replace('\n',''), favorite_count,
      retweet_count)] to a DataFrame; after the loop, [pd.to_datetime]
      converts the [created_at] column;
    - [get_grouped_df] (lines 90-92): [groupby] on the date of
      [created_at], [sum] of the int64 columns, [sort_values] on the date,
      descending;
    - [get_sorted_df] (lines 95-97): [sort_values] on [retweets],
      descending;
    - [get_profile] (lines 78-87): [api.get_user] and a dict of four fields;
    - [render_template] with the four values.  A GET renders the empty page.
    The components share no state: each stage takes the previous one's
    result as an argument.  The only effect besides the API calls is the
    [print] of the per-status exceptions.  Around the view, the module's
    start-up (lines 8-25) reads four credentials from [config.CONFIG] and
    builds the tweepy client and the Flask object, and, run as a script,
    [app.run] (lines 99-101) serves the requests, one thread per request.

    ** Files, in dependency order
    - [Prelude] (this file): Python exceptions [py_exc]; the exception
      monad [pyres] and the state-and-exception monad [PyM] (the state is
      the process's standard output, kept when an exception is raised, as
      in Python) with [py_try] for [try]/[except] and [py_print]; numpy's
      int64 wrap-around [wrap64]/[add64]; the sums [zsum]/[zsum64]; the
      rewrite database [tweetapp_rw] and the tactic [unfold_pym]; for
      step relations, [rtc_nf_unique] (a deterministic run stops at one
      state) and [sn_of_measure] (a measure every step lowers rules out
      infinite runs).
    - [PyStr]: a Python [str] as a list of code points; [py_contains] (the
      [in] operator, with [py_contains_spec]: it decides the substring
      relation [substr]); [py_replace] ([str.replace], with fuel) and the
      call [strip_newlines] of line 66.
    - [Calendar]: Python's [datetime.date] as a record [pydate];
      [civil_from_days], the conversion of a day count to a proleptic
      Gregorian (year, month, day) by 400-year eras, and its converse
      [days_from_civil]; [valid_date] and Python's order [date_lt].
    - [Pandas]: the frame's [row] record (its [created_at] column typed by
      a parameter, Python datetimes before line 75 and int64 nanoseconds
      after); [to_datetime64]/[to_datetime_column] (line 75, raising
      [OutOfBoundsDatetime] outside pandas' range); [dt_date], the
      [.dt.date] of a timestamp (its day number [day_of], converted by
      [civil_from_days]); [from_datetime_column] and [py_date], pandas'
      conversion back and Python's [date()], the references of the
      conversion theorems; the typeclass [SortValues], the
      contract of [sort_values] (a permutation, sorted by the key, ties in
      any order), with the merge-sort instance [merge_sort_values] and the
      consequences every client may use ([sort_values_keys_determined],
      [sort_values_unique], [sorted_desc_strict]).
    - [Tweepy]: the API, modelled from the spec: [status] (attributes that
      may be absent), [user], the interface [TwitterAPI] (the page requests
      of the cursor, [get_user], and the promise that [exclude_replies]
      pages hold no reply), two instances over a table of accounts:
      [account_api] (every page served) and [cursor_api] (tweepy's id
      cursor [id_cursor], which stops at the first empty page), and the
      sample accounts [Samples] the witnesses run on.
    - [Fetcher]: [status_row] (lines 61-71), [loop_body] (60-74),
      [for_items]/[for_pages] (the loop, line 59), [get_tweets_df],
      [get_profile]; the closed forms [for_items_spec], [for_pages_spec],
      [get_tweets_df_eq]; the observational equivalence [api_equiv] of
      two API instances (same statuses and first failure through the
      cursor, same [get_user]), an [Equivalence] that [get_tweets_df] and
      [get_profile] respect ([Proper] instances), and [cursor_api_equiv]:
      the cursor instance is equivalent to the all-pages one on
      well-formed tables.
    - [Aggregator]: [groupby_sum] (a fold into a [gmap] from the date to
      the three running int64 sums), [get_grouped_df] (sorted on the
      date's day number [date_key]); the reference [grouped_ref] (per
      date, newest first, the sums of its rows).
    - [Ranker]: [get_sorted_df].
    - [Handler]: [index] (lines 38-55), [serve] (Flask's dispatch and its
      400/500 answers [error_response], from the spec), and the spec's
      example.
    - [Machine]: the same view cut into steps: [hstate] (the program points
      of [index] and of the loop of [get_tweets_df]), the executable step
      [hnext] and the rules [hstep]; the spec's phase machine [phase],
      [spec_step] and the abstraction [phase_of].
    - [Server]: the start-up [module_init] (lines 8-25: [import_CONFIG],
      [dict_getitem] on the four [credential_names], [OAuthHandler],
      [set_access_token], [api_client], [flask_app]), the main guard
      [start] (lines 99-101), and the server [sstep]: it accepts the
      requests in order and interleaves one thread per request, each a run
      of [hstep]; [sched_next]/[srun] is the schedule that serves one
      request at a time.
    Each component that takes a collaborator is a Section over it
    ([Context `{TwitterAPI}], [Context `{SortValues}]): its theorems hold
    for every lawful API and every lawful sort.

    ** What the theorems show
    - Aggregator: each group holds the int64 sums of the rows of its date
      ([get_grouped_df_sums]), exact when the totals fit in int64
      ([get_grouped_df_exact]); dates strictly decrease
      ([get_grouped_df_sorted]); the hash-based groupby equals the
      reference ([get_grouped_df_ref]); with non-negative counts that
      fit, the group sums add up to the totals of the raw frame
      ([get_grouped_df_totals], through the partition of the rows by
      date, [filter_key_partition]).
    - Ranker: a permutation sorted by retweets ([get_sorted_df_ranked]);
      the sequence of counts is the same for every lawful sort
      ([get_sorted_df_keys_determined]).
    - Fetcher: every row comes from a status of a fetched page whose text
      has no ["RT @"], with that status's id, counts and text
      ([get_tweets_df_no_marker]), and from no reply
      ([get_tweets_df_no_replies]); conversely every such status with
      its five attributes is a row ([get_tweets_df_complete]); a
      failing status is skipped and printed, the others kept
      ([get_tweets_df_fault_tolerant]); a date outside pandas' range
      fails the whole fetch ([get_tweets_df_out_of_bounds]); a text
      whose marker is broken by a newline is kept, and its stored text
      contains the marker ([get_tweets_df_marker_survives]); through
      tweepy's cursor, a first page of replies ends the fetch with the
      empty frame ([cursor_first_page_replies]).
    - Handler: a page is built from a single fetch
      ([serve_page_consistent]); empty accounts give empty tables
      ([serve_empty_account]); API failures give the generic error
      ([serve_api_error]), also when only the profile request of line 49
      fails, after the whole timeline was fetched ([serve_profile_error]);
      every row of a page's raw and ranked tables comes from a fetched
      status that is no reply and has no marker
      ([serve_page_rows_qualify]); [serve] answers alike on equivalent
      APIs ([serve_api_equiv]), so through tweepy's cursor it refines the
      all-pages API on timelines with decreasing ids and no emptied page
      before a passing post ([serve_cursor_refines]); [frank]'s account
      shows the hypothesis is needed ([serve_cursor_frank_differs]); the
      spec's example ([serve_alice_example]).
    - Machine: every step is a transition or a stutter of the spec's
      phase machine ([hstep_refines_spec]).  Two lemmas check the machine
      against [serve] rather than the program: it is deterministic and
      every run stops at a response ([hstep_live]), and a run ends in
      exactly the output and response of [serve] ([hstep_serve]).
    - Server: start-up fails exactly when a credential is missing, with
      the [KeyError] of the first in source order, before any request
      ([start_missing_credential]); otherwise the client holds exactly the
      four credentials ([start_credentials]).  The lemmas on the threaded
      server ([server_answer_correct], [server_sn], [server_answers_all],
      [server_output]) check the server model: each thread carries its
      request from accept to send and threads share only standard
      output, so they hold for any handler.
    - Pandas: the conversion of line 75 loses nothing
      ([to_datetime_column_roundtrip]), and [.dt.date] of a converted
      instant is Python's [date()] of it ([to_datetime64_date]); the
      dates of converted instants lie between 1677-09-21 and 2262-04-11
      ([to_datetime64_date_range], by monotonicity of [civil_from_days],
      [civil_from_days_le]).
    - Tweepy's cursor: it yields an initial segment of the statuses that
      pass the requests ([id_cursor_prefix]), all of them when no emptied
      page is followed by a status that passes ([id_cursor_complete]).
    - Calendar: [civil_from_days] is an order embedding into Python's date
      order ([civil_from_days_lt_iff]) and yields valid dates only, leap
      years included ([civil_from_days_valid]); [days_from_civil] undoes
      it ([days_from_civil_from_days]), so two timestamps share a date
      exactly when they share a day ([dt_date_eq]).  The proofs hold for
      every day count: each quotient is named with its bounds
      ([zdiv_bounds]) and [lia] solves what is left.
    - Strings: [py_replace] deletes a character as a filter does
      ([py_replace_char_delete]); the fuel of its scan suffices
      ([replace_fuel_enough]).
    Flask's side ([serve], [error_response]) follows Flask: the route
    answers [GET] and [POST], [HEAD] runs the view as [GET], [OPTIONS] is
    answered without the view, other methods get 405; the
    [BadRequestKeyError] of [request.form['user_id']] is a 400, any other
    exception escaping the view (a plain [KeyError] included) a 500.

    ** Bounds and fuel
    [replace_nonempty] runs on fuel [length s]: each step consumes at least
    one code point of a non-empty [old].  The loop of [get_tweets_df] is
    structural over the finite list of pages the cursor yields (the spec
    gives no page cap; an API that never stops paging is outside the
    model).  The measures [hmeasure] and [server_measure] count the steps
    left (statuses and pages still to process, phases still to run), so
    no fuel is needed for the machines; [id_cursor] runs on fuel
    [length tl], one request per status at most, since each non-empty
    page moves the cursor past at least one status
    ([id_cursor_complete] proves it is enough); [srun] takes fuel only to compute
    sample runs, and the witnesses check that the run it gives has
    stopped.  Integers are [Z] with numpy's int64 wrap-around written out
    where the code sums ([add64]); timestamps are int64 nanoseconds with
    pandas' bounds.

    ** Not modelled
    Flask's routing internals and Jinja rendering (the page is the record
    of the values passed to [render_template]); tweepy's OAuth, HTTP and
    paging internals (the API is an interface; the client built at
    start-up is the one the handlers' [TwitterAPI] instance stands for);
    the module [config] (outside the sources: present with its dict, or
    absent); sockets, HTTP parsing and the bytecode-level interleaving of
    threads (a step of a thread is one step of [hstep]; the threads share
    nothing but standard output); the text column of
    the grouped frame (pandas 1.x, which the code's [DataFrame.append]
    requires, drops it from [sum]; later versions would concatenate);
    the accumulator of [sum] on int64 groups, which depends on the pandas
    version: the model adds in int64 with wrap-around ([add64]), as
    versions that keep int64 do, where versions that go through float64
    would round; the theorems on the sums are exact ones, stated for
    totals that fit in int64, where both agree, or on the wrapped sums.

    Two refinements of the model are left out on purpose: the pages are
    a list the API computes before the loop runs, not requested lazily
    (the result is the same: [cursor_items] stops at the first failed
    request, as the lazy cursor does, and nothing the loop does reaches
    the API); and a step of a thread is one [hstep], not a bytecode of
    [print] (the threads share only standard output, whose lines
    [server_output] shows interleaved whole).  tweepy itself is a
    library: its paging is modelled ([id_cursor]), its OAuth signing,
    HTTP transport, JSON decoding and rate limits are not, so the API
    component is partly modelled.  The imports of lines 2-6 bind library
    modules and are not translated.
*)

From stdpp Require Export base list gmap sorting strings.
From Stdlib Require Export ZArith Lia.

Open Scope Z_scope.

(** ** Python exceptions raised or propagated by the code *)

Inductive py_exc :=
  | AttributeError (attr : string)     (** a missing attribute of an object *)
  | KeyError (key : string)             (** [d[k]] on a dict without [k] *)
  | BadRequestKeyError (key : string)   (** werkzeug's [request.form[k]] without [k] *)
  | OutOfBoundsDatetime                (** [pd.to_datetime] out of range *)
  | TweepError (msg : string)          (** an API call that failed *)
  | ImportError (name : string).       (** [from config import CONFIG] *)

#[export] Instance py_exc_eq_dec : EqDecision py_exc.
Proof. solve_decision. Defined.

(** ** The exception monad: a Python expression evaluates or raises *)

Inductive pyres (A : Type) :=
  | Ok (a : A)
  | Exc (e : py_exc).
Arguments Ok {A} a.
Arguments Exc {A} e.

#[export] Instance pyres_ret : MRet pyres := λ A a, Ok a.
#[export] Instance pyres_bind : MBind pyres :=
  λ A B f m, match m with Ok a => f a | Exc e => Exc e end.
#[export] Instance pyres_fmap : FMap pyres :=
  λ A B f m, match m with Ok a => Ok (f a) | Exc e => Exc e end.

(** Attribute access [obj.attr]: an absent attribute raises. *)
Definition getattr {A} (attr : string) (o : option A) : pyres A :=
  match o with Some a => Ok a | None => Exc (AttributeError attr) end.

(** [map] of a function that may raise, stopping at the first exception
    (a vectorised pandas conversion raises for the whole column). *)
Fixpoint map_res {A B} (f : A → pyres B) (l : list A) : pyres (list B) :=
  match l with
  | [] => Ok []
  | x :: l' => y ← f x; ys ← map_res f l'; Ok (y :: ys)
  end.

(** ** The state-and-exception monad of the process

    The state is what the process printed on standard output.  A raised
    exception keeps the state reached so far: what was printed stays
    printed. *)

Record world := { stdout : list py_exc }.

Definition PyM (A : Type) : Type := world → world * pyres A.

#[export] Instance pym_ret : MRet PyM := λ A a w, (w, Ok a).
#[export] Instance pym_bind : MBind PyM :=
  λ A B f m w, match m w with
               | (w', Ok a) => f a w'
               | (w', Exc e) => (w', Exc e)
               end.

Definition lift {A} (r : pyres A) : PyM A := λ w, (w, r).
Definition raise {A} (e : py_exc) : PyM A := λ w, (w, Exc e).

(** The world after [es] were printed. *)
Definition emit (w : world) (es : list py_exc) : world := {| stdout := stdout w ++ es |}.

(** [print(e)] *)
Definition py_print (e : py_exc) : PyM unit := λ w, (emit w [e], Ok tt).

(** [try: body  except Exception as e: handler(e)] *)
Definition py_try {A} (body : PyM A) (handler : py_exc → PyM A) : PyM A :=
  λ w, match body w with
       | (w', Ok a) => (w', Ok a)
       | (w', Exc e) => handler e w'
       end.

Declare Scope py_scope.
Delimit Scope py_scope with py.
Notation "'try:' b 'except' e '=>' h" := (py_try b (λ e, h))
  (at level 100, b at level 100, e name, h at level 100) : py_scope.

(** ** numpy int64 arithmetic *)

Definition int64_min : Z := - 2 ^ 63.
Definition int64_max : Z := 2 ^ 63 - 1.

Definition in_int64 (z : Z) : bool := (int64_min <=? z) && (z <=? int64_max).

(** Two's complement wrap-around of a mathematical integer to int64, the
    result of a C [int64_t] addition as numpy's group sums perform it. *)
Definition wrap64 (z : Z) : Z := (z + 2 ^ 63) mod 2 ^ 64 - 2 ^ 63.

(** Addition of two int64 values in numpy. *)
Definition add64 (a b : Z) : Z := wrap64 (a + b).

(** ** Integer sums over lists *)

Definition zsum {A} (f : A → Z) (l : list A) : Z := foldr (λ x acc, f x + acc) 0 l.

(** The same sum in int64, accumulated left to right from 0 as numpy does. *)
Definition zsum64 {A} (f : A → Z) (l : list A) : Z :=
  foldl (λ acc x, add64 acc (f x)) 0 l.

(** ** Automation shared by the development *)

Create Rewrite HintDb tweetapp_rw.

(** Unfold the monad operations of [PyM] to their state-passing form. *)
Ltac unfold_pym :=
  unfold mbind, pym_bind, mret, pym_ret, py_try, lift, raise, py_print in *.

(** ** Lemmas on the monads *)

Lemma emit_nil w : emit w [] = w.
Proof. destruct w. unfold emit. simpl. by rewrite app_nil_r. Qed.

Lemma emit_app w es1 es2 : emit (emit w es1) es2 = emit w (es1 ++ es2).
Proof. unfold emit. simpl. by rewrite app_assoc. Qed.

#[export] Hint Rewrite emit_nil emit_app : tweetapp_rw.

Lemma bind_Ok {A B} (f : A → pyres B) (m : pyres A) b :
  (m ≫= f) = Ok b ↔ ∃ a, m = Ok a ∧ f a = Ok b.
Proof. destruct m; simpl; split; naive_solver. Qed.

Section Monads.
Context {A B : Type}.

Lemma map_res_Ok (f : A → pyres B) (l : list A) (l' : list B) :
  map_res f l = Ok l' ↔ Forall2 (λ a b, f a = Ok b) l l'.
Proof.
  revert l'. induction l as [|x l IH]; intros l'; cbn [map_res].
  - split; [intros [= <-]; constructor | by inversion 1].
  - split.
    + intros (y & Hy & (ys & Hys & [= <-])%bind_Ok)%bind_Ok.
      constructor; [done | by apply IH].
    + inversion 1 as [|? y ? ys Hy Hys]; subst.
      apply IH in Hys. by rewrite Hy; cbn; rewrite Hys.
Qed.

Lemma map_res_length (f : A → pyres B) l l' :
  map_res f l = Ok l' → length l' = length l.
Proof. intros ?%map_res_Ok. symmetry. by eapply Forall2_length. Qed.
End Monads.

(** ** Lemmas on lists *)

Lemma Forall2_elem_of_r {A B} (P : A → B → Prop) l k y :
  Forall2 P l k → y ∈ k → ∃ x, x ∈ l ∧ P x y.
Proof.
  induction 1 as [|x y' l k Hxy _ IH]; [set_solver|].
  intros [->|Hy]%elem_of_cons; [exists x; split; [left|]; done|].
  destruct (IH Hy) as (x' & ? & ?). exists x'. split; [right|]; done.
Qed.

Lemma Forall2_elem_of_l {A B} (P : A → B → Prop) l k x :
  Forall2 P l k → x ∈ l → ∃ y, y ∈ k ∧ P x y.
Proof.
  induction 1 as [|x' y l k Hxy _ IH]; [set_solver|].
  intros [->|Hx]%elem_of_cons; [exists y; split; [left|]; done|].
  destruct (IH Hx) as (y' & ? & ?). exists y'. split; [right|]; done.
Qed.

Lemma StronglySorted_weaken {A} (R R' : relation A) (P : A → Prop) l :
  Forall P l → (∀ x y, P x → P y → R x y → R' x y) →
  StronglySorted R l → StronglySorted R' l.
Proof.
  intros HP Himpl Hs. induction Hs as [|x l _ IH Hx]; constructor.
  - apply IH. by inversion HP.
  - inversion HP as [|? ? Px Pl]; subst. rewrite Forall_forall in Hx, Pl |- *.
    intros y Hy. apply Himpl; auto.
Qed.

(** A list of pairs (position, value): its positions, and its elements. *)
Lemma imap_pair_fst {A B} (g : A → B) l : fst <$> imap (λ k x, (k, g x)) l = seq 0 (length l).
Proof. rewrite fmap_imap. etrans; [apply (imap_seq_0 l (λ j, j))|]. apply list_fmap_id. Qed.

Lemma elem_of_imap_pair {A B} (g : A → B) (l : list A) i y :
  (i, y) ∈ imap (λ k x, (k, g x)) l ↔ ∃ x, l !! i = Some x ∧ y = g x.
Proof. rewrite list_elem_of_lookup. setoid_rewrite list_lookup_imap_Some. naive_solver. Qed.

Section FilterFacts.
Context {A} (P : A → Prop) `{∀ x, Decision (P x)}.

Lemma filter_Forall_all l : Forall P l → filter P l = l.
Proof. induction 1 as [|x l Hx _ IH]; [done|]. by rewrite filter_cons_True, IH. Qed.

Lemma filter_Forall_none l : Forall (λ x, ¬ P x) l → filter P l = [].
Proof. induction 1 as [|x l Hx _ IH]; [done|]. by rewrite filter_cons_False. Qed.

(** The last element a filter keeps: nothing after it is kept. *)
Lemma last_filter_Some l x :
  last (filter P l) = Some x → ∃ l1 l2, l = l1 ++ x :: l2 ∧ P x ∧ filter P l2 = [].
Proof.
  induction l as [|y l IH]; [done|]. rewrite filter_cons. intros Hl.
  destruct (filter P l) as [|z fl] eqn:E.
  - case_decide; [|done]. simpl in Hl. injection Hl as ->. by exists [], l.
  - assert (last (z :: fl) = Some x) as Hx.
    { case_decide; [by rewrite last_cons_cons in Hl|done]. }
    destruct (IH Hx) as (l1 & l2 & -> & ? & ?). by exists (y :: l1), l2.
Qed.
End FilterFacts.

(** ** Integer division by constants *)

Lemma div_bounds (a b : Z) : 0 < b → b * (a / b) ≤ a < b * (a / b) + b.
Proof. intros. pose proof (Z.div_mod a b). pose proof (Z.mod_pos_bound a b). lia. Qed.

(** Replace every quotient [a / b] by a positive constant [b], in the
    goal and the hypotheses, by a fresh variable with its two bounds, so
    that [lia] reasons on a linear problem. *)
Ltac zdiv_bounds :=
  repeat match goal with
  | |- context [?a / ?b] =>
      let c := eval cbv in (0 <? b) in
      lazymatch c with true =>
        let q := fresh "q" in
        pose proof (div_bounds a b ltac:(reflexivity)); set (q := a / b) in *; clearbody q
      end
  | H : context [?a / ?b] |- _ =>
      let c := eval cbv in (0 <? b) in
      lazymatch c with true =>
        let q := fresh "q" in
        pose proof (div_bounds a b ltac:(reflexivity)); set (q := a / b) in *; clearbody q
      end
  end.

(** ** Lemmas on int64 arithmetic *)

Lemma wrap64_small z : int64_min ≤ z ≤ int64_max → wrap64 z = z.
Proof.
  unfold wrap64, int64_min, int64_max. intros.
  rewrite Z.mod_small; lia.
Qed.

Lemma wrap64_range z : int64_min ≤ wrap64 z ≤ int64_max.
Proof.
  unfold wrap64, int64_min, int64_max.
  pose proof (Z.mod_pos_bound (z + 2 ^ 63) (2 ^ 64)). lia.
Qed.

Lemma in_int64_spec z : in_int64 z = true ↔ int64_min ≤ z ≤ int64_max.
Proof. unfold in_int64. rewrite andb_true_iff, !Z.leb_le. done. Qed.

Lemma wrap64_in_int64 z : in_int64 z = true → wrap64 z = z.
Proof. intros ?%in_int64_spec. by apply wrap64_small. Qed.

(** [wrap64] only depends on its argument modulo 2^64. *)
Lemma wrap64_mod z : wrap64 (z mod 2 ^ 64) = wrap64 z.
Proof.
  unfold wrap64. rewrite Z.add_mod_idemp_l by lia. done.
Qed.

Lemma wrap64_add_wrap_l a b : wrap64 (wrap64 a + b) = wrap64 (a + b).
Proof.
  unfold wrap64 at 2.
  replace ((a + 2 ^ 63) mod 2 ^ 64 - 2 ^ 63 + b)
    with ((a + 2 ^ 63) mod 2 ^ 64 + (b - 2 ^ 63)) by lia.
  unfold wrap64. rewrite <- Z.add_assoc, Z.add_mod_idemp_l by lia.
  f_equal. f_equal. lia.
Qed.

Lemma wrap64_idem z : wrap64 (wrap64 z) = wrap64 z.
Proof. pose proof (wrap64_add_wrap_l z 0) as H. by rewrite !Z.add_0_r in H. Qed.

Lemma add64_wrap_l a b : add64 (wrap64 a) b = wrap64 (a + b).
Proof. apply wrap64_add_wrap_l. Qed.

#[export] Hint Rewrite wrap64_add_wrap_l wrap64_idem add64_wrap_l : tweetapp_rw.

(** ** Lemmas on sums *)

Section Sums.
Context {A : Type} (f : A → Z).

Lemma zsum_nil : zsum f [] = 0.
Proof. done. Qed.

Lemma zsum_cons x l : zsum f (x :: l) = f x + zsum f l.
Proof. done. Qed.

Lemma zsum_app l1 l2 : zsum f (l1 ++ l2) = zsum f l1 + zsum f l2.
Proof. induction l1; simpl; [done|]. unfold zsum in *. simpl. lia. Qed.

(** A sum does not depend on the order of the summands: [zsum f]
    respects permutations, so [rewrite] may replace a list by a
    permutation of it under [zsum]. *)
#[export] Instance zsum_perm : Proper ((≡ₚ) ==> (=)) (zsum f).
Proof. induction 1; unfold zsum in *; simpl; lia. Qed.

Lemma zsum_nonneg l : Forall (λ x, 0 ≤ f x) l → 0 ≤ zsum f l.
Proof. induction 1; unfold zsum in *; simpl; lia. Qed.

(** With non-negative summands, a sub-list sums to at most the whole. *)
Lemma zsum_filter_le (P : A → Prop) `{∀ x, Decision (P x)} l :
  Forall (λ x, 0 ≤ f x) l → 0 ≤ zsum f (filter P l) ≤ zsum f l.
Proof.
  induction 1 as [|x l Hx _ IH]; [done|].
  rewrite filter_cons. unfold zsum in *. case_decide; simpl; lia.
Qed.

(** numpy's left-to-right int64 accumulation is the wrapped
    mathematical sum, whatever the order of the additions. *)
Lemma zsum64_acc acc l :
  foldl (λ acc x, add64 acc (f x)) (wrap64 acc) l = wrap64 (acc + zsum f l).
Proof.
  revert acc. induction l as [|x l IH]; intros acc; simpl.
  - by rewrite Z.add_0_r.
  - rewrite add64_wrap_l, IH. f_equal. unfold zsum. simpl. lia.
Qed.

Lemma zsum64_wrap l : zsum64 f l = wrap64 (zsum f l).
Proof. unfold zsum64. rewrite <- (Z.add_0_l (zsum f l)), <- zsum64_acc. done. Qed.

(** A sum over blocks is the sum of the block sums. *)
Lemma zsum_join (ls : list (list A)) : zsum f (mjoin ls) = zsum (zsum f) ls.
Proof. induction ls as [|l ls IH]; [done|]. simpl. rewrite zsum_app, IH. done. Qed.
End Sums.

Lemma zsum_ext {A} (f g : A → Z) l : (∀ x, x ∈ l → f x = g x) → zsum f l = zsum g l.
Proof.
  induction l as [|x l IH]; intros Hfg; [done|].
  rewrite !zsum_cons, (Hfg x), IH; [done| |by left]. intros y Hy. apply Hfg. by right.
Qed.

Lemma zsum_fmap {A B} (f : B → Z) (g : A → B) l : zsum f (g <$> l) = zsum (f ∘ g) l.
Proof. induction l as [|x l IH]; [done|]. by rewrite fmap_cons, !zsum_cons, IH. Qed.

(** A list is a permutation of its blocks by key, over any list of
    distinct keys that contains every key of the list. *)
Lemma filter_key_partition {A B} `{EqDecision B} (k : A → B) (l : list A) (D : list B) :
  NoDup D → (∀ x, x ∈ l → k x ∈ D) →
  l ≡ₚ mjoin ((λ d, filter (λ x, k x = d) l) <$> D).
Proof.
  intros HD. induction l as [|x l IH]; intros Hk.
  - rewrite (list_fmap_ext _ (λ _, [])) by (intros; apply filter_nil).
    clear HD Hk. induction D as [|d D IHD]; [done|exact IHD].
  - destruct (list_elem_of_split D (k x)) as (D1 & D2 & ->); [apply Hk; left|].
    apply NoDup_app in HD as (_ & Hdis & (Hn2 & _)%NoDup_cons).
    assert (k x ∉ D1) as Hn1 by (intros Hin; by apply (Hdis _ Hin), elem_of_cons; left).
    rewrite IH by (intros y Hy; apply Hk; by right).
    rewrite !fmap_app, !fmap_cons, !join_app. simpl.
    rewrite filter_cons_True by done.
    rewrite (list_fmap_ext (λ d, filter (λ y, k y = d) (x :: l)) (λ d, filter (λ y, k y = d) l) D1),
            (list_fmap_ext (λ d, filter (λ y, k y = d) (x :: l)) (λ d, filter (λ y, k y = d) l) D2);
      [|intros i d Hd; apply filter_cons_False; intros Hx; subst d;
        apply list_elem_of_lookup_2 in Hd; by (apply Hn1 || apply Hn2)..].
    simpl. apply Permutation_middle.
Qed.

(** ** Step relations

    The machines of the development are deterministic relations; a run
    that stops stops at one state, and a measure that every step lowers
    rules out infinite runs. *)

Section Relations.
Context {A : Type} (R : relation A).

Definition deterministic : Prop := ∀ x y z, R x y → R x z → y = z.

Lemma rtc_nf_unique :
  deterministic → ∀ x y z, rtc R x y → nf R y → rtc R x z → nf R z → y = z.
Proof.
  intros Hdet x y z Hy. revert z.
  induction Hy as [x|x x' y Hxx' _ IH]; intros z Hny Hz Hnz.
  - destruct Hz as [|x x'' z Hxx'' _]; [done|]. destruct Hny. by exists x''.
  - destruct Hz as [|x x'' z Hxx'' Hz].
    + destruct Hnz. by exists x'.
    + apply IH; [done| |done]. by rewrite (Hdet _ _ _ Hxx' Hxx'').
Qed.

Lemma sn_of_measure (f : A → nat) : (∀ x y, R x y → (f y < f x)%nat) → ∀ x, sn R x.
Proof.
  intros Hf x. induction x as [x IH] using (induction_ltof1 _ f).
  constructor. intros y Hy. apply IH. by apply Hf.
Qed.
End Relations.

#[export] Hint Constructors rtc : core.
