(* ===== verification/PyStr.v ===== *)
(** Python strings as the code uses them: the [in] operator on strings
    (line 61: ["RT @" in tweet.text]) and [str.replace] (line 66:
    [tweet.text.replace('\n', '')]).  A Python [str] is a sequence of
    Unicode code points; it is modelled as a list of [N]. *)

From S2P Require Import Prelude.

Abbreviation codepoint := N (only parsing).
Abbreviation pystr := (list N) (only parsing).

(** A string literal of the source, written in ASCII. *)
Definition of_string (s : string) : pystr :=
  map Ascii.N_of_ascii (String.list_ascii_of_string s).

Definition newline : codepoint := 10%N.

(** [s.startswith(p)] *)
Fixpoint starts_with (p s : pystr) : bool :=
  match p, s with
  | [], _ => true
  | c :: p', d :: s' => N.eqb c d && starts_with p' s'
  | _ :: _, [] => false
  end.

(** [needle in hay] for two strings: CPython's search, stated as the first
    position where [needle] is a prefix; the empty string is in every
    string. *)
Fixpoint py_contains (needle hay : pystr) : bool :=
  starts_with needle hay ||
  match hay with
  | [] => false
  | _ :: hay' => py_contains needle hay'
  end.

(** [str.replace(old, new)] with non-empty [old]: scan from the left,
    replacing each non-overlapping occurrence.  Each step consumes at least
    one code point, so [length s] steps are enough ([replace_fuel_enough]). *)
Fixpoint replace_nonempty (fuel : nat) (old new s : pystr) : pystr :=
  match fuel with
  | O => s
  | S fuel' =>
      match s with
      | [] => []
      | c :: s' =>
          if starts_with old s
          then new ++ replace_nonempty fuel' old new (drop (length old) s)
          else c :: replace_nonempty fuel' old new s'
      end
  end.

(** [s.replace(old, new)]: with an empty [old], Python inserts [new] before
    every code point and at the end. *)
Definition py_replace (old new s : pystr) : pystr :=
  match old with
  | [] => new ++ mjoin (map (λ c, c :: new) s)
  | _ :: _ => replace_nonempty (length s) old new s
  end.

(** The expression of line 66. *)
Definition strip_newlines (text : pystr) : pystr := py_replace [newline] [] text.

(** The marker of line 61. *)
Definition rt_marker : pystr := of_string "RT @".

(** ** Specification: [in] is the substring relation *)

Definition substr (needle hay : pystr) : Prop := ∃ p q, hay = p ++ needle ++ q.

Lemma starts_with_spec p s : starts_with p s = true ↔ p `prefix_of` s.
Proof.
  revert s. induction p as [|c p IH]; intros [|d s]; simpl.
  - split; [intros; apply prefix_nil | done].
  - split; [intros; apply prefix_nil | done].
  - split; [done | intros ?%prefix_nil_not; done].
  - rewrite andb_true_iff, N.eqb_eq, IH. split.
    + intros [-> ?]. by apply prefix_cons.
    + intros H. split; [by eapply prefix_cons_inv_1 | by eapply prefix_cons_inv_2].
Qed.

Lemma py_contains_spec needle hay : py_contains needle hay = true ↔ substr needle hay.
Proof.
  induction hay as [|d hay IH]; simpl; rewrite orb_true_iff, starts_with_spec.
  - split.
    + intros [[q Hq] | ?]; [by exists [], q | done].
    + intros ([|??] & q & Hq); [left; by exists q | done].
  - rewrite IH. split.
    + intros [[q Hq] | (p & q & ->)]; [by exists [], q | by exists (d :: p), q].
    + intros ([|c p] & q & Hq); simpl in Hq.
      * left. by exists q.
      * right. simplify_eq. by exists p, q.
Qed.

#[export] Instance substr_dec needle hay : Decision (substr needle hay).
Proof.
  refine (cast_if (decide (py_contains needle hay = true)));
    by rewrite <- py_contains_spec.
Defined.

(** ** [str.replace] *)

(** The fuel of [py_replace] is enough: with a non-empty [old], any
    fuel of at least [length s] steps gives the same result, so the scan
    always completes on the whole string. *)
Lemma replace_fuel_enough old new s fuel :
  old ≠ [] → (length s ≤ fuel)%nat →
  replace_nonempty fuel old new s = replace_nonempty (length s) old new s.
Proof.
  intros Hold. revert s fuel.
  induction s as [s IH] using (induction_ltof1 _ (@length _)); unfold ltof in IH.
  intros fuel Hf. destruct s as [|c s']; [by destruct fuel|].
  destruct fuel as [|fuel]; [simpl in Hf; lia|]. simpl.
  destruct (starts_with old (c :: s')) eqn:Hs.
  - destruct old as [|o old']; [done|]. simpl.
    assert (length (drop (length old') s') < length (c :: s'))%nat as Hlt
      by (rewrite length_drop; simpl; lia).
    rewrite (IH _ Hlt fuel), (IH _ Hlt (length s'))
      by (rewrite length_drop; simpl in *; lia). done.
  - assert (length s' < length (c :: s'))%nat as Hlt by (simpl; lia).
    rewrite (IH _ Hlt fuel) by (simpl in *; lia). done.
Qed.

(** C17. The general routine, called as [text.replace('\n', '')] (a
    one-character [old], an empty [new]), deletes that character: it
    equals the reference [filter]. *)
Lemma py_replace_char_delete c s :
  py_replace [c] [] s = filter (λ d, d ≠ c) s.
Proof.
  unfold py_replace. induction s as [|d s IH]; [done|].
  cbn [length replace_nonempty starts_with].
  rewrite filter_cons.
  destruct (N.eqb_spec c d) as [->|Hne]; simpl.
  - rewrite decide_False by naive_solver. by rewrite drop_0, IH.
  - rewrite decide_True by naive_solver. by rewrite IH.
Qed.

