(* ===== verification/Calendar.v ===== *)
(** The calendar date of a timestamp, as [.dt.date] computes it (src/app.py,
    line 91): a Python [datetime.date] is a (year, month, day) of the
    proleptic Gregorian calendar.  pandas converts a day count from
    1970-01-01 to a date; [civil_from_days] does it by 400-year eras
    (146097 days each), [days_from_civil] is the converse.

    The proofs name every quotient with its bounds and leave linear
    arithmetic to [lia], for every day count, before and after the epoch.
    They give the round trip, the validity of every computed date, and
    that the conversion is strictly increasing: equal dates are equal day
    numbers, and dates compare as their day numbers. *)

From S2P Require Import Prelude.

Record pydate := mk_date { year : Z; month : Z; day : Z }.

#[export] Instance pydate_eq_dec : EqDecision pydate.
Proof. solve_decision. Defined.

#[export] Program Instance pydate_countable : Countable pydate :=
  inj_countable' (λ d, (year d, month d, day d)) (λ '(y, m, d), mk_date y m d) _.
Next Obligation. by intros []. Qed.

(** The date [z] days after 1970-01-01. *)
Definition civil_from_days (z : Z) : pydate :=
  let z := z + 719468 in
  let era := z `div` 146097 in
  let doe := z - era * 146097 in
  let yoe := (doe - doe `div` 1460 + doe `div` 36524 - doe `div` 146096) `div` 365 in
  let doy := doe - (365 * yoe + yoe `div` 4 - yoe `div` 100) in
  let mp := (5 * doy + 2) `div` 153 in
  let d := doy - (153 * mp + 2) `div` 5 + 1 in
  let m := if mp <? 10 then mp + 3 else mp - 9 in
  let y := yoe + era * 400 in
  mk_date (if m <=? 2 then y + 1 else y) m d.

(** The number of days from 1970-01-01 to a date. *)
Definition days_from_civil (dt : pydate) : Z :=
  let y := if month dt <=? 2 then year dt - 1 else year dt in
  let era := y `div` 400 in
  let yoe := y - era * 400 in
  let mp := if 2 <? month dt then month dt - 3 else month dt + 9 in
  let doy := (153 * mp + 2) `div` 5 + day dt - 1 in
  let doe := yoe * 365 + yoe `div` 4 - yoe `div` 100 + doy in
  era * 146097 + doe - 719468.

Definition is_leap (y : Z) : bool :=
  (y mod 4 =? 0) && negb (y mod 100 =? 0) || (y mod 400 =? 0).

Definition days_in_month (y m : Z) : Z :=
  if m =? 2 then (if is_leap y then 29 else 28)
  else if (m =? 4) || (m =? 6) || (m =? 9) || (m =? 11) then 30
  else 31.

(** A date Python's [datetime.date] accepts (years aside). *)
Definition valid_date (dt : pydate) : bool :=
  (1 <=? month dt) && (month dt <=? 12) && (1 <=? day dt) &&
  (day dt <=? days_in_month (year dt) (month dt)).

(** Python's order on dates: by year, then month, then day. *)
Definition date_lt (a b : pydate) : Prop :=
  year a < year b ∨ (year a = year b ∧ (month a < month b ∨ (month a = month b ∧ day a < day b))).

Definition date_le (a b : pydate) : Prop := date_lt a b ∨ a = b.

Definition date_ltb (a b : pydate) : bool :=
  (year a <? year b) ||
  ((year a =? year b) && ((month a <? month b) || ((month a =? month b) && (day a <? day b)))).

Lemma date_ltb_spec a b : date_ltb a b = true ↔ date_lt a b.
Proof.
  unfold date_ltb, date_lt.
  rewrite orb_true_iff, andb_true_iff, orb_true_iff, andb_true_iff, !Z.ltb_lt, !Z.eqb_eq.
  done.
Qed.

#[export] Instance date_lt_dec a b : Decision (date_lt a b).
Proof. refine (cast_if (decide (date_ltb a b = true))); by rewrite <- date_ltb_spec. Defined.

(** ** The conversion, by linear arithmetic on the quotients

    Each proof unfolds the two conversions, splits on their month tests,
    names every quotient with its bounds ([zdiv_bounds]) and leaves a
    linear problem to [lia]. *)

Ltac calendar_arith :=
  cbv zeta; cbn [year month day];
  repeat case_match;
  rewrite ?Z.ltb_lt, ?Z.leb_le, ?Z.ltb_ge, ?Z.leb_gt in *;
  zdiv_bounds; lia.

(** Round trip: converting a day count to a date and back gives the day
    count, for every day, before and after the epoch. *)
Theorem days_from_civil_from_days z : days_from_civil (civil_from_days z) = z.
Proof. unfold civil_from_days, days_from_civil. calendar_arith. Qed.

Lemma civil_from_days_inj z1 z2 : civil_from_days z1 = civil_from_days z2 → z1 = z2.
Proof.
  intros E. rewrite <- (days_from_civil_from_days z1), <- (days_from_civil_from_days z2).
  by rewrite E.
Qed.

(** The next day is a later date. *)
Lemma civil_from_days_succ z : date_lt (civil_from_days z) (civil_from_days (z + 1)).
Proof. unfold civil_from_days, date_lt. calendar_arith. Qed.

(** C19. Every computed date is one [datetime.date] accepts: a month from 1
    to 12 and a day within that month, February having 29 days exactly in
    leap years. *)
Theorem civil_from_days_valid z : valid_date (civil_from_days z) = true.
Proof.
  unfold civil_from_days, valid_date, days_in_month, is_leap. cbv zeta. cbn [year month day].
  rewrite !Zmod_eq_full by lia.
  repeat (case_match || rewrite andb_true_iff || rewrite orb_true_iff);
  rewrite ?Z.ltb_lt, ?Z.leb_le, ?Z.ltb_ge, ?Z.leb_gt, ?Z.eqb_eq, ?Z.eqb_neq,
    ?andb_false_iff, ?orb_false_iff, ?andb_true_iff, ?orb_true_iff,
    ?negb_true_iff, ?negb_false_iff, ?Z.eqb_eq, ?Z.eqb_neq in *;
  zdiv_bounds; lia.
Qed.

(** ** Python's date order *)

#[export] Instance date_lt_trans : Transitive date_lt.
Proof. unfold date_lt. intros ???. lia. Qed.

Lemma date_lt_irrefl d : ¬ date_lt d d.
Proof. unfold date_lt. lia. Qed.

Lemma civil_from_days_lt z1 z2 : z1 < z2 → date_lt (civil_from_days z1) (civil_from_days z2).
Proof.
  intros Hlt. replace z2 with (z1 + 1 + Z.of_nat (Z.to_nat (z2 - z1 - 1))) by lia.
  generalize (Z.to_nat (z2 - z1 - 1)) as n. induction n as [|n IH].
  - rewrite Z.add_0_r. apply civil_from_days_succ.
  - etrans; [exact IH|]. rewrite Nat2Z.inj_succ, <- Z.add_1_r, Z.add_assoc.
    apply civil_from_days_succ.
Qed.

Lemma civil_from_days_le z1 z2 : z1 ≤ z2 → date_le (civil_from_days z1) (civil_from_days z2).
Proof.
  intros Hle. destruct (proj1 (Z.lt_eq_cases z1 z2) Hle) as [Hlt| ->]; [|by right].
  left. by apply civil_from_days_lt.
Qed.

(** C18. [.dt.date] is an order embedding: the date of day [z1] is before
    the date of day [z2] in Python's order on dates exactly when [z1 < z2],
    for all day counts, before and after the epoch. *)
Lemma civil_from_days_lt_iff z1 z2 :
  date_lt (civil_from_days z1) (civil_from_days z2) ↔ z1 < z2.
Proof.
  split; [|apply civil_from_days_lt].
  intros Hd. destruct (Z.lt_trichotomy z1 z2) as [|[->|Hgt]]; [done| |].
  - by apply date_lt_irrefl in Hd.
  - pose proof (civil_from_days_lt _ _ Hgt). destruct (date_lt_irrefl (civil_from_days z1)).
    by etrans.
Qed.
