(* ===== verification/Pandas.v ===== *)
(** The pandas operations [app.py] relies on: its DataFrame of five columns
    (lines 29-35), the conversion [pd.to_datetime] of the [created_at]
    column (line 75), the day of a timestamp taken by [.dt.date]
    (line 91), and [sort_values] (lines 91 and 96).

    pandas is a library: [to_datetime] and the day key follow pandas'
    representation (int64 nanoseconds since the epoch, [NaT] being the
    smallest int64); [sort_values] is given by its contract only, because
    its default algorithm (numpy's introsort) does not fix the order of
    equal keys. *)

From S2P Require Import Prelude PyStr Calendar.

(** ** The DataFrame of [get_tweets_df]

    One record per row, with the five columns of [columns]; the type of the
    [created_at] column changes from Python [datetime] objects to pandas
    timestamps at line 75, so it is a parameter. *)
Record row (T : Type) := mk_row {
  tweet_id : Z;
  created_at : T;
  text : pystr;
  fav : Z;
  retweets : Z
}.
Arguments mk_row {T} _ _ _ _ _.
Arguments tweet_id {T} _.
Arguments created_at {T} _.
Arguments text {T} _.
Arguments fav {T} _.
Arguments retweets {T} _.

#[export] Instance row_eq_dec {T} `{EqDecision T} : EqDecision (row T).
Proof. solve_decision. Defined.

(** A Python [datetime] as tweepy builds it (naive, UTC), counted in
    microseconds from 1970-01-01T00:00, its resolution. *)
Abbreviation pydatetime := Z (only parsing).

(** A pandas [Timestamp]: int64 nanoseconds from the epoch. *)
Abbreviation timestamp := Z (only parsing).

Definition ns_per_us : Z := 1000.
Definition ns_per_day : Z := 86400 * 10 ^ 9.

(** The representable range: every int64 except [NaT] (the smallest). *)
Definition timestamp_min : Z := int64_min + 1.
Definition timestamp_max : Z := int64_max.

(** [pd.to_datetime] of one [datetime]: the nanosecond count, or
    [OutOfBoundsDatetime] when it leaves pandas' range. *)
Definition to_datetime64 (us : pydatetime) : pyres timestamp :=
  let ns := us * ns_per_us in
  if (timestamp_min <=? ns) && (ns <=? timestamp_max)
  then Ok ns else Exc OutOfBoundsDatetime.

(** Line 75: [tweets_df["created_at"] = pd.to_datetime(tweets_df["created_at"])].
    The conversion is vectorised: one value out of range raises for the
    whole column, and the frame is not changed. *)
Definition to_datetime_column (df : list (row pydatetime)) : pyres (list (row timestamp)) :=
  map_res (λ r, ns ← to_datetime64 (created_at r);
                Ok (mk_row (tweet_id r) ns (text r) (fav r) (retweets r))) df.

(** The day of a timestamp, counted from 1970-01-01 (floor division, so
    instants before the epoch fall in the right day). *)
Definition day_of (ns : timestamp) : Z := ns `div` ns_per_day.

(** [.dt.date] (line 91): the calendar date of a timestamp. *)
Definition dt_date (ns : timestamp) : pydate := civil_from_days (day_of ns).

(** Two timestamps have the same date exactly when they fall on the same
    day, and the day number of a date is recovered from it. *)
Lemma dt_date_eq a b : dt_date a = dt_date b ↔ day_of a = day_of b.
Proof. unfold dt_date. split; [apply civil_from_days_inj | by intros ->]. Qed.

Lemma days_from_civil_dt_date ns : days_from_civil (dt_date ns) = day_of ns.
Proof. apply days_from_civil_from_days. Qed.

(** [Series.dt.to_pydatetime()]: a timestamp back to a [datetime], whose
    resolution is the microsecond. *)
Definition to_pydatetime (ns : timestamp) : pydatetime := ns `div` ns_per_us.

Definition from_datetime_column (df : list (row timestamp)) : list (row pydatetime) :=
  (λ r, mk_row (tweet_id r) (to_pydatetime (created_at r)) (text r) (fav r) (retweets r)) <$> df.

(** [datetime.date()] of the naive UTC [datetime]s tweepy returns. *)
Definition us_per_day : Z := 86400 * 10 ^ 6.
Definition py_date (us : pydatetime) : pydate := civil_from_days (us `div` us_per_day).

Lemma to_datetime64_Ok us ns : to_datetime64 us = Ok ns → ns = us * ns_per_us.
Proof. unfold to_datetime64. case_match; congruence. Qed.

(** C23. Round trip: the conversion of line 75 loses nothing: converting
    the [created_at] column back to [datetime]s gives the frame that was
    converted, every other column unchanged. *)
Theorem to_datetime_column_roundtrip df df' :
  to_datetime_column df = Ok df' → from_datetime_column df' = df.
Proof.
  unfold to_datetime_column, from_datetime_column. intros Hc%map_res_Ok.
  induction Hc as [|r r' df df' Hr _ IH]; [done|]. rewrite fmap_cons, IH. f_equal.
  destruct (to_datetime64 (created_at r)) as [ns|] eqn:E; simpl in Hr; [|done].
  injection Hr as <-. apply to_datetime64_Ok in E. subst ns. destruct r. simpl.
  unfold to_pydatetime. by rewrite Z.div_mul by (unfold ns_per_us; lia).
Qed.

(** C24. The date pandas groups on is Python's: the [.dt.date] of a
    converted [created_at] is the [date()] of the [datetime] tweepy gave,
    for every instant in range, before and after the epoch. *)
Theorem to_datetime64_date us ns : to_datetime64 us = Ok ns → dt_date ns = py_date us.
Proof.
  intros ->%to_datetime64_Ok. unfold dt_date, py_date, day_of, ns_per_day, us_per_day, ns_per_us.
  f_equal. replace (86400 * 10 ^ 9) with (1000 * (86400 * 10 ^ 6)) by reflexivity.
  rewrite <- Z.div_div, Z.div_mul by lia. done.
Qed.

(** ** The contract of [sort_values]

    [df.sort_values(by=key, ascending=asc)] returns the rows of [df]
    reordered so that the key is non-decreasing ([asc]) or non-increasing
    (not [asc]).  The default algorithm is not stable: the order of rows
    with equal keys is not specified, so it is not part of the contract. *)

Definition key_le {A} (key : A → Z) (ascending : bool) (x y : A) : Prop :=
  if ascending then key x ≤ key y else key y ≤ key x.

#[export] Instance key_le_dec {A} (key : A → Z) asc x y : Decision (key_le key asc x y).
Proof. unfold key_le. destruct asc; apply _. Defined.

#[export] Instance key_le_total {A} (key : A → Z) asc : Total (key_le key asc).
Proof. intros x y. unfold key_le. destruct asc; lia. Qed.

#[export] Instance key_le_trans {A} (key : A → Z) asc : Transitive (key_le key asc).
Proof. intros x y z. unfold key_le. destruct asc; lia. Qed.

Class SortValues := {
  sort_values : ∀ {A}, (A → Z) → bool → list A → list A;
  sort_values_perm : ∀ A (key : A → Z) asc l, sort_values key asc l ≡ₚ l;
  sort_values_sorted : ∀ A (key : A → Z) asc l, Sorted (key_le key asc) (sort_values key asc l)
}.

(** A lawful instance: stdpp's merge sort on the key order. *)
#[export] Program Instance merge_sort_values : SortValues := {|
  sort_values A key asc l := merge_sort (key_le key asc) l
|}.
Next Obligation. intros. apply merge_sort_Permutation. Qed.
Next Obligation. intros. apply Sorted_merge_sort, _. Qed.

(** ** What every lawful [sort_values] guarantees *)

(** The order of the keys alone, on [Z]. *)
Definition zle_dir (asc : bool) (a b : Z) : Prop := if asc then a ≤ b else b ≤ a.

#[export] Instance zle_dir_trans asc : Transitive (zle_dir asc).
Proof. unfold zle_dir. intros ???. destruct asc; lia. Qed.

#[export] Instance zle_dir_antisymm asc : AntiSymm (=) (zle_dir asc).
Proof. unfold zle_dir. intros ??. destruct asc; lia. Qed.

Section SortValuesFacts.
Context `{SortValues} {A : Type} (key : A → Z) (asc : bool).

Lemma sort_values_elem_of (l : list A) x : x ∈ sort_values key asc l ↔ x ∈ l.
Proof. by rewrite sort_values_perm. Qed.

Lemma sort_values_nil : sort_values key asc (@nil A) = [].
Proof. apply Permutation_nil_r, sort_values_perm. Qed.

Lemma sort_values_length (l : list A) : length (sort_values key asc l) = length l.
Proof. by rewrite sort_values_perm. Qed.

Lemma sort_values_keys_sorted (l : list A) : Sorted (zle_dir asc) (key <$> sort_values key asc l).
Proof.
  eapply Sorted_fmap, sort_values_sorted.
  intros x y. unfold key_le, zle_dir. done.
Qed.

(** The sequence of keys of the result does not depend on the
    unspecified order of ties: it is the same for all lawful
    implementations and for all orderings of the input. *)
Lemma sort_values_keys_determined (l1 l2 : list A) :
  l1 ≡ₚ l2 → key <$> sort_values key asc l1 = key <$> sort_values key asc l2.
Proof.
  intros Hp. apply (Sorted_unique (zle_dir asc)); [apply sort_values_keys_sorted..|].
  by rewrite !sort_values_perm, Hp.
Qed.

(** When no two distinct rows share a key, the result is the unique
    sorted permutation of the input. *)
Lemma sort_values_unique (l l' : list A) :
  (∀ x y, x ∈ l → y ∈ l → key x = key y → x = y) →
  Sorted (key_le key asc) l' → l' ≡ₚ l →
  sort_values key asc l = l'.
Proof.
  intros Hinj Hs Hp. apply (Sorted_unique_strong (key_le key asc)); [|apply sort_values_sorted|done|].
  - intros x y Hx Hy Hxy Hyx. apply Hinj.
    + by apply sort_values_elem_of.
    + by rewrite <- Hp.
    + unfold key_le in *. destruct asc; lia.
  - by rewrite sort_values_perm.
Qed.
(** A descending sort of rows with pairwise distinct keys is strictly
    descending. *)
Lemma sorted_desc_strict (l : list A) :
  Sorted (key_le key false) l → NoDup (key <$> l) →
  StronglySorted (λ x y, key y < key x) l.
Proof.
  intros Hs%Sorted_StronglySorted; [|apply _].
  induction Hs as [|x l _ IH Hx]; intros Hnd; constructor.
  - apply IH. by apply NoDup_cons in Hnd as [_ ?].
  - apply NoDup_cons in Hnd as [Hnot _].
    apply Forall_forall. intros y Hy. rewrite Forall_forall in Hx.
    specialize (Hx y Hy). unfold key_le in Hx.
    assert (key y ≠ key x); [|lia].
    intros Heq. apply Hnot. rewrite <- Heq. by apply list_elem_of_fmap_2.
Qed.
End SortValuesFacts.

(** C29. Bounds of the group keys: every date [.dt.date] gives for a
    converted [created_at] lies between 1677-09-21 and 2262-04-11, the
    first and last days of pandas' nanosecond range. *)
Theorem to_datetime64_date_range us ns :
  to_datetime64 us = Ok ns →
  date_le (mk_date 1677 9 21) (dt_date ns) ∧ date_le (dt_date ns) (mk_date 2262 4 11).
Proof.
  unfold to_datetime64.
  destruct ((timestamp_min <=? us * ns_per_us) && (us * ns_per_us <=? timestamp_max)) eqn:Hr;
    [intros [= <-]|done].
  rewrite andb_true_iff, !Z.leb_le in Hr. unfold dt_date.
  replace (mk_date 1677 9 21) with (civil_from_days (day_of timestamp_min)) by (vm_compute; reflexivity).
  replace (mk_date 2262 4 11) with (civil_from_days (day_of timestamp_max)) by (vm_compute; reflexivity).
  split; apply civil_from_days_le; apply Z.div_le_mono; unfold ns_per_day; lia.
Qed.

Module PandasSamples.
(** 2024-01-01T09:00:00Z, in microseconds. *)
Definition jan1_9h : pydatetime := (1704067200 + 9 * 3600) * 10 ^ 6.

Lemma to_datetime_column_roundtrip_witness :
  from_datetime_column [mk_row 1001 (jan1_9h * ns_per_us) [] 5 10] = [mk_row 1001 jan1_9h [] 5 10].
Proof. apply to_datetime_column_roundtrip. vm_compute. reflexivity. Defined.

Lemma to_datetime64_date_witness : dt_date (jan1_9h * ns_per_us) = py_date jan1_9h.
Proof. apply to_datetime64_date. vm_compute. reflexivity. Defined.

Lemma jan1_9h_date : py_date jan1_9h = mk_date 2024 1 1.
Proof. vm_compute. reflexivity. Qed.

Lemma to_datetime64_date_range_witness :
  date_le (mk_date 1677 9 21) (dt_date (jan1_9h * ns_per_us)) ∧
  date_le (dt_date (jan1_9h * ns_per_us)) (mk_date 2262 4 11).
Proof. apply (to_datetime64_date_range jan1_9h). vm_compute. reflexivity. Defined.
End PandasSamples.
