(* ===== verification/Tweepy.v ===== *)
(** The tweepy collaborator, modelled from the spec (sections 4.1, 4.2, 6):
    the objects the API returns and the two operations [app.py] consumes,
    [user_timeline] through a [Cursor] (line 59) and [get_user] (line 79).

    A [Status] object's attributes are read one by one by [app.py]; an
    attribute that the API response lacks is absent ([None] here), and
    reading it raises [AttributeError].  Attribute types are the ones
    tweepy's parser gives (ints, a [datetime], a [str]).

    The interface [TwitterAPI] states what the API promises to the
    fetcher: the sequence of page fetches the cursor performs (each of
    which may raise), and, with [exclude_replies=True], that no status on a
    page is a reply.  Two instances are built from a table of accounts:
    [account_api] serves every page of the timeline, as the spec reads
    the cursor; [cursor_api] follows tweepy's id cursor ([id_cursor]:
    requests by [max_id], replies removed after the count, stop at the
    first empty page).  On timelines with decreasing ids the cursor yields
    an initial segment of the statuses that pass ([id_cursor_prefix]),
    and all of them when no emptied page is followed by one that passes
    ([id_cursor_complete]). *)

From S2P Require Import Prelude PyStr Pandas.

(** ** The objects *)

Record status := mk_status {
  st_id : option Z;
  st_created_at : option pydatetime;
  st_text : option pystr;
  st_favorite_count : option Z;
  st_retweet_count : option Z;
  st_in_reply_to_status_id : option Z   (** [None]: not a reply *)
}.

#[export] Instance status_eq_dec : EqDecision status.
Proof. solve_decision. Defined.

Definition is_reply (st : status) : bool := bool_decide (is_Some (st_in_reply_to_status_id st)).

Record user := mk_user {
  u_id : Z;
  u_screen_name : pystr;
  u_profile_image_url : pystr;
  u_description : pystr
}.

(** ** The interface *)

Class TwitterAPI := {
  (** [tweepy.Cursor(api.user_timeline, screen_name=h,
      exclude_replies=ex).items()]: the outcome of each page request, in
      the order the cursor issues them.  The iteration ends after the last
      page; a failed request raises out of the [for] loop. *)
  user_timeline_pages : pystr → bool → list (pyres (list status));
  (** [api.get_user(screen_name=h)] *)
  get_user : pystr → pyres user;
  (** [exclude_replies=True] removes replies from every page. *)
  user_timeline_no_replies : ∀ h page st,
    Ok page ∈ user_timeline_pages h true → st ∈ page → is_reply st = false
}.

(** ** An instance: a table of accounts *)

Record account := mk_account {
  acc_user : user;
  acc_timeline : list status   (** newest first, replies included *)
}.

(** [user_timeline]'s default page size. *)
Definition page_size : nat := 20.

(** The successive pages of a timeline: the server cuts the timeline in
    pages of [size] statuses and, when asked to, drops the replies of each
    page after cutting it (so a page may come back shorter, or empty). *)
Fixpoint timeline_pages (fuel size : nat) (l : list status) : list (list status) :=
  match fuel, l with
  | O, _ | _, [] => []
  | S fuel', _ => take size l :: timeline_pages fuel' size (drop size l)
  end.

Definition filter_page (exclude_replies : bool) (page : list status) : list status :=
  if exclude_replies then filter (λ st, is_reply st = false) page else page.

Definition not_found : py_exc := TweepError "User not found".

Definition accounts_timeline (db : gmap pystr account) (h : pystr) (ex : bool)
    : list (pyres (list status)) :=
  match db !! h with
  | None => [Exc not_found]
  | Some a =>
      (λ p, Ok (filter_page ex p)) <$>
        timeline_pages (length (acc_timeline a)) page_size (acc_timeline a)
  end.

Definition accounts_get_user (db : gmap pystr account) (h : pystr) : pyres user :=
  match db !! h with
  | None => Exc not_found
  | Some a => Ok (acc_user a)
  end.

Lemma accounts_timeline_no_replies db h page st :
  Ok page ∈ accounts_timeline db h true → st ∈ page → is_reply st = false.
Proof.
  unfold accounts_timeline. destruct (db !! h) as [a|].
  - intros (p & [= ->] & _)%list_elem_of_fmap. unfold filter_page.
    intros ?%list_elem_of_filter. naive_solver.
  - intros ?%list_elem_of_singleton. done.
Qed.

Definition account_api (db : gmap pystr account) : TwitterAPI := {|
  user_timeline_pages := accounts_timeline db;
  get_user := accounts_get_user db;
  user_timeline_no_replies := accounts_timeline_no_replies db
|}.

(** The pages cover the timeline: concatenated, they give it back. *)
Lemma timeline_pages_join fuel size l :
  (0 < size)%nat → (length l ≤ fuel)%nat → mjoin (timeline_pages fuel size l) = l.
Proof.
  revert l. induction fuel as [|fuel IH]; intros l Hs Hl.
  - destruct l; simpl in *; [done | lia].
  - destruct l as [|x l']; [done|]. cbn [timeline_pages mjoin list_join].
    rewrite IH; [apply take_drop | done |].
    rewrite length_drop. simpl in *. lia.
Qed.

(** ** tweepy's cursor over [user_timeline]

    [tweepy.Cursor(api.user_timeline, ...)] pages by id ([IdIterator]):
    each request asks for the [page_size] newest statuses with an id at
    most [max_id]; with [exclude_replies] the server removes the replies
    after counting, so a page may come back short or empty.  The cursor
    continues below the smallest id it received ([ResultSet.max_id]) and
    stops at the first empty page ([len(result) == 0]).  Ids of a
    timeline decrease from the newest status. *)

Definition status_id (st : status) : Z := default 0 (st_id st).

(** The statuses of a timeline with an id at most [max_id]. *)
Definition below (max_id : option Z) (tl : list status) : list status :=
  match max_id with
  | None => tl
  | Some m => filter (λ st, status_id st ≤ m) tl
  end.

(** [api.user_timeline(max_id=m, exclude_replies=ex)] *)
Definition user_timeline (tl : list status) (max_id : option Z) (ex : bool) : list status :=
  filter_page ex (take page_size (below max_id tl)).

(** The smallest id of a page, [None] for an empty page. *)
Fixpoint min_id (page : list status) : option Z :=
  match page with
  | [] => None
  | st :: page' =>
      Some (match min_id page' with None => status_id st | Some m => Z.min (status_id st) m end)
  end.

(** [IdIterator.next], page by page; [fuel] bounds the number of
    requests ([id_cursor_complete] shows that [length tl] is enough). *)
Fixpoint id_cursor (fuel : nat) (tl : list status) (max_id : option Z) (ex : bool)
    : list (list status) :=
  match fuel with
  | O => []
  | S fuel' =>
      let page := user_timeline tl max_id ex in
      match min_id page with
      | None => []
      | Some m => page :: id_cursor fuel' tl (Some (m - 1)) ex
      end
  end.

Definition cursor_timeline (db : gmap pystr account) (h : pystr) (ex : bool)
    : list (pyres (list status)) :=
  match db !! h with
  | None => [Exc not_found]
  | Some a => Ok <$> id_cursor (length (acc_timeline a)) (acc_timeline a) None ex
  end.

Lemma id_cursor_pages_filtered fuel tl mx ex page :
  page ∈ id_cursor fuel tl mx ex → ∃ l, page = filter_page ex l.
Proof.
  revert mx. induction fuel as [|fuel IH]; intros mx; simpl; [set_solver|].
  destruct (min_id _); [|set_solver]. intros [->|?]%elem_of_cons; [by eexists|by eapply IH].
Qed.

Lemma cursor_timeline_no_replies db h page st :
  Ok page ∈ cursor_timeline db h true → st ∈ page → is_reply st = false.
Proof.
  unfold cursor_timeline. destruct (db !! h) as [a|].
  - intros (p & [= ->] & (l & ->)%id_cursor_pages_filtered)%list_elem_of_fmap.
    intros ?%list_elem_of_filter. naive_solver.
  - intros ?%list_elem_of_singleton. done.
Qed.

(** The API with tweepy's cursor over the accounts of [db]. *)
Definition cursor_api (db : gmap pystr account) : TwitterAPI := {|
  user_timeline_pages := cursor_timeline db;
  get_user := accounts_get_user db;
  user_timeline_no_replies := cursor_timeline_no_replies db
|}.

(** *** Facts on pages *)

Lemma filter_page_app ex l1 l2 : filter_page ex (l1 ++ l2) = filter_page ex l1 ++ filter_page ex l2.
Proof. destruct ex; [apply filter_app|done]. Qed.

Lemma filter_page_nil ex : filter_page ex [] = [].
Proof. by destruct ex. Qed.

Lemma filter_page_join ex ls : mjoin (filter_page ex <$> ls) = filter_page ex (mjoin ls).
Proof.
  induction ls as [|l ls IH]; [by rewrite filter_page_nil|].
  csimpl. by rewrite IH, filter_page_app.
Qed.

Lemma filter_page_elem_of ex l x : x ∈ filter_page ex l → x ∈ l.
Proof. destruct ex; [by intros [_ ?]%list_elem_of_filter|done]. Qed.

(** The oldest status of a page: the server left out nothing after it. *)
Lemma filter_page_last ex l st :
  last (filter_page ex l) = Some st →
  ∃ l1 l2, l = l1 ++ st :: l2 ∧ filter_page ex (l1 ++ st :: l2) = filter_page ex l1 ++ [st] ∧
           filter_page ex l2 = [].
Proof.
  unfold filter_page. destruct ex.
  - intros (l1 & l2 & -> & Hst & Hl2)%last_filter_Some. exists l1, l2. split_and!; [done| |done].
    by rewrite filter_app, filter_cons_True, Hl2.
  - intros (l1 & ->)%last_Some. by exists l1, [].
Qed.

Lemma min_id_None page : min_id page = None → page = [].
Proof. by destruct page. Qed.

Lemma min_id_last l st :
  Forall (λ x, status_id st < status_id x) l → min_id (l ++ [st]) = Some (status_id st).
Proof. induction 1 as [|x l Hx _ IH]; [done|]. simpl. rewrite IH. f_equal. lia. Qed.

Section IdCursor.
Variable tl : list status.
Hypothesis tl_sorted : StronglySorted (λ a b, status_id b < status_id a) tl.

Lemma tl_split_ids pre st post :
  tl = pre ++ st :: post →
  Forall (λ x, status_id st < status_id x) pre ∧ Forall (λ y, status_id y < status_id st) post.
Proof.
  intros E. pose proof tl_sorted as Hs. rewrite E in Hs.
  apply StronglySorted_app in Hs as (Hcross & _ & Hr). split.
  - apply Forall_forall. intros x Hx. apply (Hcross x st); [done|left].
  - by apply StronglySorted_cons in Hr as [? _].
Qed.

(** One request of the cursor: from a suffix of the timeline, the page
    returned, and the suffix the next request starts from. *)
Lemma cursor_step mx j ex m :
  below mx tl = drop j tl → min_id (user_timeline tl mx ex) = Some m →
  ∃ j', (j < j')%nat ∧ below (Some (m - 1)) tl = drop j' tl ∧
        filter_page ex (drop j tl) = user_timeline tl mx ex ++ filter_page ex (drop j' tl).
Proof.
  intros Hb Hm. unfold user_timeline in *. rewrite Hb in *.
  destruct (last (filter_page ex (take page_size (drop j tl)))) as [st|] eqn:Hl;
    [|apply last_None in Hl; by rewrite Hl in Hm].
  destruct (filter_page_last _ _ _ Hl) as (A & B & Htake & Hpage & HB).
  set (R := drop page_size (drop j tl)).
  assert (drop j tl = A ++ st :: B ++ R) as Hdrop.
  { rewrite <- (take_drop page_size (drop j tl)), Htake. by rewrite <- app_assoc. }
  assert (tl = (take j tl ++ A) ++ st :: (B ++ R)) as Htl.
  { rewrite <- app_assoc, <- Hdrop. symmetry. apply take_drop. }
  destruct (tl_split_ids _ _ _ Htl) as [Hpre Hpost].
  apply Forall_app in Hpre as [Htj HA].
  rewrite Htake, Hpage in Hm. rewrite min_id_last in Hm.
  2: { rewrite Forall_forall in HA |- *. intros x Hx%filter_page_elem_of. by apply HA. }
  assert (drop j tl = (A ++ [st]) ++ B ++ R) as Hdrop2 by (rewrite Hdrop, <- app_assoc; done).
  assert (drop (S (length A)) (drop j tl) = B ++ R) as Hnext.
  { rewrite Hdrop2. apply drop_app_length'. rewrite length_app. simpl. lia. }
  injection Hm as <-. exists (j + S (length A))%nat. split; [lia|]. split.
  - rewrite <- drop_drop, Hnext. simpl. rewrite Htl at 1. rewrite !filter_app, filter_cons_False by lia.
    rewrite (filter_Forall_none _ (take j tl)), (filter_Forall_none _ A), (filter_Forall_all _ (B ++ R));
      [done|..]; (eapply Forall_impl; [eassumption|]; simpl; lia).
  - rewrite Htake, <- drop_drop, Hnext, Hpage, Hdrop2, !filter_page_app, HB.
    assert (filter_page ex [st] = [st]) as Hst.
    { rewrite filter_page_app in Hpage. apply app_inv_head in Hpage.
      change (st :: B) with ([st] ++ B) in Hpage.
      by rewrite filter_page_app, HB, app_nil_r in Hpage. }
    by rewrite Hst.
Qed.
Lemma id_cursor_prefix_from fuel mx j ex :
  below mx tl = drop j tl → mjoin (id_cursor fuel tl mx ex) `prefix_of` filter_page ex (drop j tl).
Proof.
  revert mx j. induction fuel as [|fuel IH]; intros mx j Hb; simpl; [apply prefix_nil|].
  destruct (min_id _) as [m|] eqn:Hm; [|apply prefix_nil].
  destruct (cursor_step _ _ _ _ Hb Hm) as (j' & _ & Hb' & ->). simpl.
  apply prefix_app, (IH _ _ Hb').
Qed.

(** No all-reply page followed by a non-reply: every page the filter
    empties is followed by replies only. *)
Definition no_gap (ex : bool) : Prop :=
  ∀ j, filter_page ex (take page_size (drop j tl)) = [] → filter_page ex (drop j tl) = [].

(** A timeline of at most one page has no gap. *)
Lemma no_gap_short ex : (length tl ≤ page_size)%nat → no_gap ex.
Proof. intros Hl j. rewrite take_ge; [done|]. rewrite length_drop. lia. Qed.

Lemma id_cursor_complete_from fuel mx j ex :
  no_gap ex → below mx tl = drop j tl → (length tl ≤ fuel + j)%nat →
  mjoin (id_cursor fuel tl mx ex) = filter_page ex (drop j tl).
Proof.
  intros Hgap. revert mx j. induction fuel as [|fuel IH]; intros mx j Hb Hlen; simpl.
  - by rewrite drop_ge, filter_page_nil by lia.
  - destruct (min_id _) as [m|] eqn:Hm.
    + destruct (cursor_step _ _ _ _ Hb Hm) as (j' & Hj' & Hb' & ->). simpl.
      f_equal. apply (IH _ _ Hb'). lia.
    + unfold user_timeline in Hm. rewrite Hb in Hm. apply min_id_None in Hm.
      symmetry. by apply Hgap.
Qed.

(** C25. The cursor yields, in timeline order and without repetition, an
    initial segment of the statuses the requests let through: it never
    skips a status and then yields an older one. *)
Theorem id_cursor_prefix fuel ex :
  mjoin (id_cursor fuel tl None ex) `prefix_of` filter_page ex tl.
Proof. by apply (id_cursor_prefix_from _ _ 0). Qed.

(** C26. Completeness of the cursor: when no page the filter empties is
    followed by a status that passes it, [length tl] requests yield all
    the statuses that pass, in timeline order; without [exclude_replies]
    this is the whole timeline. *)
Theorem id_cursor_complete fuel ex :
  no_gap ex → (length tl ≤ fuel)%nat → mjoin (id_cursor fuel tl None ex) = filter_page ex tl.
Proof. intros Hgap Hlen. apply (id_cursor_complete_from _ _ 0); [done..|lia]. Qed.
End IdCursor.

(** ** Sample accounts

    The accounts the examples and witnesses of the development run on.
    [alice] is the account of the spec's end-to-end example (section 8);
    [bob]'s timeline holds a re-share, a reply, a status missing its
    [retweet_count], a status whose text puts a newline inside the marker,
    and a plain status with a newline; [carol] has only a re-share;
    [dave] has a status dated in 2300, past pandas' range; [frank]'s
    twenty newest statuses are replies, his one post of his own older. *)
Module Samples.
(** 2024-01-01T00:00:00Z, in seconds from the epoch. *)
Definition jan1 : Z := 1704067200.
Definition hour : Z := 3600.

Definition tweet (i secs : Z) (txt : string) (f r : Z) : status :=
  mk_status (Some i) (Some (secs * 10 ^ 6)) (Some (of_string txt)) (Some f) (Some r) None.

Definition alice_user : user :=
  mk_user 42 (of_string "alice") (of_string "https://pbs.twimg.com/alice.png") (of_string "hi").
Definition alice_timeline : list status :=
  [tweet 1003 (jan1 + 24 * hour + 8 * hour) "back to work" 0 20;
   tweet 1002 (jan1 + 18 * hour) "dinner" 3 1;
   tweet 1001 (jan1 + 9 * hour) "happy new year" 5 10].

Definition bob_user : user :=
  mk_user 43 (of_string "bob") (of_string "https://pbs.twimg.com/bob.png") (of_string "").
Definition bob_reshare : status := tweet 2006 (jan1 + 5 * hour) "RT @alice: happy new year" 0 7.
Definition bob_reply : status :=
  mk_status (Some 2005) (Some ((jan1 + 4 * hour) * 10 ^ 6)) (Some (of_string "@alice same"))
            (Some 1) (Some 0) (Some 1001).
Definition bob_no_counts : status :=
  mk_status (Some 2004) (Some ((jan1 + 3 * hour) * 10 ^ 6)) (Some (of_string "no counts"))
            (Some 2) None None.
Definition bob_split_marker : status :=
  mk_status (Some 2003) (Some ((jan1 + 2 * hour) * 10 ^ 6))
            (Some (of_string "RT" ++ [newline] ++ of_string " @carol is here")) (Some 4) (Some 2) None.
Definition bob_plain : status :=
  mk_status (Some 2001) (Some ((jan1 + hour) * 10 ^ 6))
            (Some (of_string "good" ++ [newline] ++ of_string "morning")) (Some 1) (Some 3) None.
Definition bob_timeline : list status :=
  [bob_reshare; bob_reply; bob_no_counts; bob_split_marker; bob_plain].

Definition carol_user : user :=
  mk_user 44 (of_string "carol") (of_string "https://pbs.twimg.com/carol.png") (of_string "").
Definition carol_timeline : list status := [tweet 3001 jan1 "RT @bob: good morning" 0 1].

Definition dave_user : user :=
  mk_user 45 (of_string "dave") (of_string "https://pbs.twimg.com/dave.png") (of_string "").
(** 2300-01-01T00:00:00Z *)
Definition dave_future : status := tweet 4001 10413792000 "hello from the future" 1 1.
Definition dave_timeline : list status := [dave_future].

(** [frank] answered twenty posts after his only post of his own. *)
Definition frank_user : user :=
  mk_user 46 (of_string "frank") (of_string "https://pbs.twimg.com/frank.png") (of_string "").
Definition frank_reply (k : Z) : status :=
  mk_status (Some (5001 + k)) (Some ((jan1 + k * hour) * 10 ^ 6)) (Some (of_string "@alice ok"))
            (Some 0) (Some 0) (Some 1001).
Definition frank_plain : status := tweet 5001 jan1 "new year" 2 3.
Definition frank_timeline : list status := (frank_reply <$> reverse (seqZ 1 20)) ++ [frank_plain].

Definition sample_db : gmap pystr account :=
  {[ of_string "alice" := mk_account alice_user alice_timeline;
     of_string "bob" := mk_account bob_user bob_timeline;
     of_string "carol" := mk_account carol_user carol_timeline;
     of_string "dave" := mk_account dave_user dave_timeline;
     of_string "frank" := mk_account frank_user frank_timeline ]}.

Definition sample_api : TwitterAPI := account_api sample_db.

Definition w0 : world := {| stdout := [] |}.
End Samples.

Module CursorSamples.
Import Samples.

(** The first request for [frank] comes back empty: the cursor stops. *)
Lemma frank_cursor : id_cursor (length frank_timeline) frank_timeline None true = [].
Proof. vm_compute. reflexivity. Qed.

Lemma id_cursor_prefix_witness :
  mjoin (id_cursor 21 frank_timeline None true) `prefix_of` filter_page true frank_timeline.
Proof. apply id_cursor_prefix. vm_compute. repeat constructor; vm_compute; reflexivity. Defined.

Lemma id_cursor_complete_witness :
  mjoin (id_cursor 3 alice_timeline None true) = filter_page true alice_timeline.
Proof.
  apply id_cursor_complete.
  - repeat constructor; vm_compute; reflexivity.
  - intros [|[|[|j]]]; [vm_compute; discriminate..|]. intros _. simpl. by rewrite drop_nil.
  - vm_compute. lia.
Defined.
End CursorSamples.
