(* ===== verification/Fetcher.v ===== *)
(** The record fetcher [get_tweets_df] (src/app.py, lines 57-76) and the
    profile fetcher [get_profile] (lines 78-87), against the API interface
    [TwitterAPI].

    [get_tweets_df] runs in [PyM]: the [print(e)] of the [except] clause
    writes to standard output, and what it wrote stays written when a later
    page request or [pd.to_datetime] raises.  The DataFrame is the local
    variable [tweets_df], threaded through the loop; [DataFrame.append]
    returns a new frame, so a row is added only when all five values were
    read.  The file ends with the observational equivalence [api_equiv] of
    API instances, which the fetchers respect. *)

From S2P Require Import Prelude PyStr Pandas Tweepy.

Section Fetcher.
Context `{TwitterAPI}.

(** Lines 61-71 for one status: [Ok None] when the filter skips it,
    [Ok (Some se)] with the row to append, or the exception raised by an
    attribute read.  The reads happen in the order of the source: [text]
    for the test, then the five values of the [pd.Series] list. *)
Definition status_row (st : status) : pyres (option (row pydatetime)) :=
  t ← getattr "text" (st_text st);
  if py_contains rt_marker t then Ok None
  else
    i ← getattr "id" (st_id st);
    c ← getattr "created_at" (st_created_at st);
    t' ← getattr "text" (st_text st);
    f ← getattr "favorite_count" (st_favorite_count st);
    r ← getattr "retweet_count" (st_retweet_count st);
    Ok (Some (mk_row i c (strip_newlines t') f r)).

(** [tweets_df.append(se, ignore_index=True)] *)
Definition df_append {T} (df : list (row T)) (se : row T) : list (row T) := df ++ [se].

(** One iteration of the loop, lines 60-74: the [try] block, and the
    [except Exception as e: print(e)] handler that keeps the frame. *)
Definition loop_body (df : list (row pydatetime)) (st : status) : PyM (list (row pydatetime)) :=
  (try: (r ← lift (status_row st);
         match r with
         | None => mret df
         | Some se => mret (df_append df se)
         end)
   except e => (_ ← py_print e; mret df))%py.

(** The [for] loop over the items of one page. *)
Fixpoint for_items (items : list status) (df : list (row pydatetime))
    : PyM (list (row pydatetime)) :=
  match items with
  | [] => mret df
  | st :: items' => df' ← loop_body df st; for_items items' df'
  end.

(** The [for] loop over the cursor: the items of each page in turn; a
    failed page request raises out of the loop (it is not inside the
    [try]). *)
Fixpoint for_pages (pages : list (pyres (list status))) (df : list (row pydatetime))
    : PyM (list (row pydatetime)) :=
  match pages with
  | [] => mret df
  | Exc e :: _ => raise e
  | Ok items :: pages' => df' ← for_items items df; for_pages pages' df'
  end.

(** [get_tweets_df(user_id)], lines 57-76. *)
Definition get_tweets_df (user_id : pystr) : PyM (list (row timestamp)) :=
  df ← for_pages (user_timeline_pages user_id true) [];
  lift (to_datetime_column df).

(** The profile dict of lines 81-86; [user_id] is the handle as the form
    gave it, not the account's own screen name. *)
Record profile := mk_profile {
  p_id : Z;
  p_user_id : pystr;
  p_image : pystr;
  p_description : pystr
}.

(** [get_profile(user_id)], lines 78-87: an API failure propagates. *)
Definition get_profile (user_id : pystr) : pyres profile :=
  u ← get_user user_id;
  Ok (mk_profile (u_id u) user_id (u_profile_image_url u) (u_description u)).
End Fetcher.

(** ** The loop, in closed form *)

Section FetcherSpec.
Context `{TwitterAPI}.

(** What one status contributes: its row, or the exception printed. *)
Definition row_of (st : status) : option (row pydatetime) :=
  match status_row st with Ok (Some r) => Some r | _ => None end.
Definition exc_of (st : status) : option py_exc :=
  match status_row st with Exc e => Some e | _ => None end.

Definition fetch_rows (items : list status) : list (row pydatetime) := omap row_of items.
Definition fetch_errors (items : list status) : list py_exc := omap exc_of items.

(** The statuses the cursor hands to the loop, and the exception of the
    first failed page request, if any (later pages are never requested). *)
Fixpoint cursor_items (pages : list (pyres (list status))) : list status * option py_exc :=
  match pages with
  | [] => ([], None)
  | Exc e :: _ => ([], Some e)
  | Ok items :: pages' => let '(its, err) := cursor_items pages' in (items ++ its, err)
  end.

Lemma loop_body_spec df st w :
  loop_body df st w = (emit w (option_list (exc_of st)), Ok (df ++ option_list (row_of st))).
Proof.
  unfold loop_body, row_of, exc_of. unfold_pym.
  destruct (status_row st) as [[r|]|e]; simpl; autorewrite with tweetapp_rw;
    rewrite ?app_nil_r; done.
Qed.

Lemma for_items_spec items df w :
  for_items items df w = (emit w (fetch_errors items), Ok (df ++ fetch_rows items)).
Proof.
  revert df w. induction items as [|st items IH]; intros df w; simpl.
  - by rewrite emit_nil, app_nil_r.
  - unfold_pym. rewrite loop_body_spec, IH, emit_app, <- app_assoc.
    unfold fetch_errors, fetch_rows. by destruct (exc_of st), (row_of st).
Qed.

Lemma for_pages_spec pages df w :
  for_pages pages df w =
    let '(its, err) := cursor_items pages in
    (emit w (fetch_errors its),
     match err with None => Ok (df ++ fetch_rows its) | Some e => Exc e end).
Proof.
  revert df w. induction pages as [|[items|e] pages IH]; intros df w; simpl.
  - by rewrite emit_nil, app_nil_r.
  - unfold_pym. rewrite for_items_spec, IH.
    destruct (cursor_items pages) as [its err].
    unfold fetch_errors, fetch_rows. rewrite emit_app, !omap_app, app_assoc.
    by destruct err.
  - by rewrite emit_nil.
Qed.

Lemma status_row_Some st r :
  status_row st = Ok (Some r) ↔
  ∃ t i c f rt,
    st_text st = Some t ∧ py_contains rt_marker t = false ∧
    st_id st = Some i ∧ st_created_at st = Some c ∧
    st_favorite_count st = Some f ∧ st_retweet_count st = Some rt ∧
    r = mk_row i c (strip_newlines t) f rt.
Proof.
  unfold status_row, mbind, pyres_bind.
  destruct (st_text st) as [t|]; simpl; [|naive_solver].
  destruct (py_contains rt_marker t) eqn:Hm.
  - split; [done|]. intros (? & ? & ? & ? & ? & [= <-] & ? & _). congruence.
  - destruct (st_id st), (st_created_at st), (st_favorite_count st), (st_retweet_count st);
      simpl; (split; [intros ?; simplify_eq; eauto 20 |
                      intros (? & ? & ? & ? & ? & ? & ? & ? & ? & ? & ? & ->); by simplify_eq]).
Qed.

Lemma row_of_Some st r : row_of st = Some r ↔ status_row st = Ok (Some r).
Proof. unfold row_of. destruct (status_row st) as [[]|]; naive_solver. Qed.

Lemma fetch_rows_elem_of items r :
  r ∈ fetch_rows items ↔ ∃ st, st ∈ items ∧ status_row st = Ok (Some r).
Proof.
  unfold fetch_rows. rewrite list_elem_of_omap.
  setoid_rewrite row_of_Some. naive_solver.
Qed.

Lemma cursor_items_elem_of pages st :
  st ∈ (cursor_items pages).1 → ∃ page, Ok page ∈ pages ∧ st ∈ page.
Proof.
  induction pages as [|[items|e] pages IH]; simpl; [set_solver| |set_solver].
  destruct (cursor_items pages) as [its err]. simpl in *.
  rewrite elem_of_app. intros [Hst|Hst].
  - exists items. split; [left|]; done.
  - destruct (IH Hst) as (page & ? & ?). exists page. split; [right|]; done.
Qed.

(** When no request failed, the loop sees every status of every page. *)
Lemma cursor_items_complete pages its page st :
  cursor_items pages = (its, None) → Ok page ∈ pages → st ∈ page → st ∈ its.
Proof.
  revert its. induction pages as [|[items|e] pages IH]; intros its; simpl; [set_solver| |done].
  destruct (cursor_items pages) as [its' err] eqn:E. intros [= <- ->].
  rewrite elem_of_cons, elem_of_app. intros [[= ->]|Hp] Hst; [by left | right; by eapply IH].
Qed.

(** The conversion of line 75 keeps every column but [created_at]. *)
Definition converted (r : row pydatetime) (r' : row timestamp) : Prop :=
  to_datetime64 (created_at r) = Ok (created_at r') ∧
  r' = mk_row (tweet_id r) (created_at r') (text r) (fav r) (retweets r).

Lemma to_datetime_column_Ok df df' :
  to_datetime_column df = Ok df' ↔ Forall2 converted df df'.
Proof.
  unfold to_datetime_column. rewrite map_res_Ok.
  assert (∀ r r', (ns ← to_datetime64 (created_at r);
                   Ok (mk_row (tweet_id r) ns (text r) (fav r) (retweets r))) = Ok r'
                  ↔ converted r r') as Hpt.
  { intros r r'. unfold converted.
    destruct (to_datetime64 (created_at r)) eqn:E; simpl; [|naive_solver].
    split; [intros [= <-]; done | intros [[= ->] ->]; done]. }
  split; intros HF; (eapply Forall2_impl; [exact HF|]); intros ???; by apply Hpt.
Qed.
End FetcherSpec.

(** ** Properties of [get_tweets_df] *)

Section FetcherProperties.
Context `{TwitterAPI}.

(** A cursor whose requests all succeed hands the loop its pages in
    order. *)
Lemma cursor_items_Ok pages : cursor_items (Ok <$> pages) = (mjoin pages, None).
Proof. induction pages as [|p ps IH]; [done|]. csimpl. by rewrite IH. Qed.

(** [get_tweets_df] in closed form: the exceptions of the statuses that
    failed are printed in order, and the result is the conversion of the
    rows of the others, unless a page request failed. *)
Lemma get_tweets_df_eq h w :
  get_tweets_df h w =
    let '(its, err) := cursor_items (user_timeline_pages h true) in
    (emit w (fetch_errors its),
     match err with None => to_datetime_column (fetch_rows its) | Some e => Exc e end).
Proof.
  unfold get_tweets_df. unfold_pym. rewrite for_pages_spec.
  destruct (cursor_items _) as [its [e|]]; done.
Qed.

Lemma get_tweets_df_Ok h w w' rows :
  get_tweets_df h w = (w', Ok rows) →
  ∃ its, cursor_items (user_timeline_pages h true) = (its, None) ∧
         w' = emit w (fetch_errors its) ∧
         Forall2 converted (fetch_rows its) rows.
Proof.
  rewrite get_tweets_df_eq. destruct (cursor_items _) as [its [e|]]; [done|].
  intros [= <- ?%to_datetime_column_Ok]. by exists its.
Qed.

(** Every row of the result comes from a status the cursor yielded, read
    by [status_row], with its [created_at] converted. *)
Lemma get_tweets_df_row_source h w w' rows r :
  get_tweets_df h w = (w', Ok rows) → r ∈ rows →
  ∃ st r0 page, Ok page ∈ user_timeline_pages h true ∧ st ∈ page ∧
                status_row st = Ok (Some r0) ∧ converted r0 r.
Proof.
  intros (its & Hits & _ & HF)%get_tweets_df_Ok Hr.
  destruct (Forall2_elem_of_r _ _ _ _ HF Hr) as (r0 & (st & Hst & Hrow)%fetch_rows_elem_of & Hc).
  destruct (cursor_items_elem_of (user_timeline_pages h true) st) as (page & ? & ?);
    [by rewrite Hits|].
  by exists st, r0, page.
Qed.

(** What [get_tweets_df] prints and returns depends only on the handle
    and the API, not on what was printed before. *)
Lemma get_tweets_df_output h : ∃ out r, ∀ w, get_tweets_df h w = (emit w out, r).
Proof.
  destruct (cursor_items (user_timeline_pages h true)) as [its err] eqn:E.
  exists (fetch_errors its), (match err with None => to_datetime_column (fetch_rows its)
                                        | Some e => Exc e end).
  intros w. by rewrite get_tweets_df_eq, E.
Qed.

(** [pd.to_datetime] raises only [OutOfBoundsDatetime]. *)
Lemma to_datetime_column_cases df :
  (∃ df', to_datetime_column df = Ok df') ∨ to_datetime_column df = Exc OutOfBoundsDatetime.
Proof.
  unfold to_datetime_column. induction df as [|r df IH]; cbn [map_res]; [by left; eexists|].
  destruct (to_datetime64 (created_at r)) as [ns|e] eqn:E; simpl.
  - destruct IH as [[df' ->] | ->]; simpl; [left; by eexists | by right].
  - right. unfold to_datetime64 in E. case_match; congruence.
Qed.

(** Conversely, every status of a fetched page that [status_row] reads
    into a row gives a row of the result. *)
Lemma get_tweets_df_row_complete h w w' rows page st r0 :
  get_tweets_df h w = (w', Ok rows) → Ok page ∈ user_timeline_pages h true → st ∈ page →
  status_row st = Ok (Some r0) → ∃ r, r ∈ rows ∧ converted r0 r.
Proof.
  intros (its & Hits & _ & HF)%get_tweets_df_Ok Hp Hst Hrow.
  destruct (Forall2_elem_of_l _ _ _ r0 HF) as (r & ? & ?); [|by exists r].
  apply fetch_rows_elem_of. exists st. split; [by eapply cursor_items_complete|done].
Qed.

(** [status_row] keeps a status exactly when its text has no marker and
    the five attributes are present. *)
Lemma status_row_keeps st t i c f rt :
  st_text st = Some t → ¬ substr rt_marker t → st_id st = Some i → st_created_at st = Some c →
  st_favorite_count st = Some f → st_retweet_count st = Some rt →
  status_row st = Ok (Some (mk_row i c (strip_newlines t) f rt)).
Proof.
  intros Ht Hm Hi Hc Hf Hr. apply status_row_Some. exists t, i, c, f, rt.
  split_and!; try done. apply not_true_is_false. by rewrite py_contains_spec.
Qed.

(** C4. A row of the result never comes from a status whose text
    contains the re-share marker ["RT @"]: it comes from a status of a
    page [user_timeline] returned for the handle, whose text [t] does not
    contain it, and the row holds that status's id, counts and [t]
    without its newlines. *)
Theorem get_tweets_df_no_marker h w w' rows r :
  get_tweets_df h w = (w', Ok rows) → r ∈ rows →
  ∃ st page t, Ok page ∈ user_timeline_pages h true ∧ st ∈ page ∧
               st_text st = Some t ∧ ¬ substr rt_marker t ∧
               st_id st = Some (tweet_id r) ∧ text r = strip_newlines t ∧
               st_favorite_count st = Some (fav r) ∧ st_retweet_count st = Some (retweets r).
Proof.
  intros Hget Hr.
  destruct (get_tweets_df_row_source h w w' rows r Hget Hr)
    as (st & r0 & page & Hp & Hst & (t & i & c & f & rt & ? & Hm & ? & _ & ? & ? & ->)%status_row_Some
        & _ & ->).
  exists st, page, t. rewrite <- py_contains_spec, Hm. naive_solver.
Qed.

(** C11. Completeness of the fetch: every status of a page
    [user_timeline] returned whose text has no ["RT @"] and whose five
    attributes are present is a row of the result, with its text without
    newlines and its [created_at] converted. *)
Theorem get_tweets_df_complete h w w' rows page st t i c f rt :
  get_tweets_df h w = (w', Ok rows) → Ok page ∈ user_timeline_pages h true → st ∈ page →
  st_text st = Some t → ¬ substr rt_marker t →
  st_id st = Some i → st_created_at st = Some c →
  st_favorite_count st = Some f → st_retweet_count st = Some rt →
  ∃ ns, to_datetime64 c = Ok ns ∧ mk_row i ns (strip_newlines t) f rt ∈ rows.
Proof.
  intros Hget Hp Hst Ht Hm Hi Hc Hf Hr.
  destruct (get_tweets_df_row_complete h w w' rows page st _ Hget Hp Hst
              (status_row_keeps st t i c f rt Ht Hm Hi Hc Hf Hr)) as (r & Hin & Hcv & Heq).
  simpl in Heq. exists (created_at r). split; [done|]. by rewrite <- Heq.
Qed.

(** C15. The filter reads the text before its newlines are removed: a
    fetched status whose text [t] has no ["RT @"] but whose [t] without
    newlines has one (["RT\n @carol"]) and whose attributes are present
    is kept, and the row stored in the frame has a text that contains
    ["RT @"]. *)
Theorem get_tweets_df_marker_survives h w w' rows page st t :
  get_tweets_df h w = (w', Ok rows) → Ok page ∈ user_timeline_pages h true → st ∈ page →
  st_text st = Some t → ¬ substr rt_marker t → substr rt_marker (strip_newlines t) →
  is_Some (st_id st) → is_Some (st_created_at st) →
  is_Some (st_favorite_count st) → is_Some (st_retweet_count st) →
  ∃ r, r ∈ rows ∧ st_id st = Some (tweet_id r) ∧ substr rt_marker (text r).
Proof.
  intros Hget Hp Hst Ht Hm Hs [i Hi] [c Hc] [f Hf] [rt Hr].
  destruct (get_tweets_df_row_complete h w w' rows page st _ Hget Hp Hst
              (status_row_keeps st t i c f rt Ht Hm Hi Hc Hf Hr)) as (r & Hin & Hcv & Heq).
  simpl in Heq. exists r. split_and!; [done | by rewrite Heq..].
Qed.

(** C5. A row of the result never comes from a reply: its status was on
    a page of [user_timeline] requested with [exclude_replies=True], which
    by the API's promise holds no reply.  (The code itself does not test
    the reply flag.) *)
Theorem get_tweets_df_no_replies h w w' rows r :
  get_tweets_df h w = (w', Ok rows) → r ∈ rows →
  ∃ st page, Ok page ∈ user_timeline_pages h true ∧ st ∈ page ∧
             is_reply st = false ∧ st_id st = Some (tweet_id r).
Proof.
  intros Hget Hr.
  destruct (get_tweets_df_row_source h w w' rows r Hget Hr)
    as (st & r0 & page & Hp & Hst & (t & i & c & f & rt & _ & _ & ? & _ & _ & _ & ->)%status_row_Some
        & _ & ->).
  exists st, page. split_and!; [done | done | by eapply user_timeline_no_replies | done].
Qed.

(** C7. Per-item fault tolerance: a status whose reading raises is
    skipped and its exception printed; the loop goes on, and the result
    holds the rows of all the other statuses, in order. *)
Theorem get_tweets_df_fault_tolerant h w its1 st its2 e :
  cursor_items (user_timeline_pages h true) = (its1 ++ st :: its2, None) →
  status_row st = Exc e →
  get_tweets_df h w =
    (emit w (fetch_errors its1 ++ e :: fetch_errors its2),
     to_datetime_column (fetch_rows its1 ++ fetch_rows its2)).
Proof.
  intros Hits He. rewrite get_tweets_df_eq, Hits.
  assert (exc_of st = Some e) as Hexc by (unfold exc_of; by rewrite He).
  assert (row_of st = None) as Hrow by (unfold row_of; by rewrite He).
  unfold fetch_errors, fetch_rows. rewrite !omap_app. simpl.
  by rewrite Hexc, Hrow.
Qed.

(** C16. The per-item [try] does not cover line 75: one status whose
    [created_at] lies outside pandas' range makes the whole fetch raise
    [OutOfBoundsDatetime], losing every row. *)
Theorem get_tweets_df_out_of_bounds h w its st r :
  cursor_items (user_timeline_pages h true) = (its, None) →
  st ∈ its → status_row st = Ok (Some r) →
  to_datetime64 (created_at r) = Exc OutOfBoundsDatetime →
  get_tweets_df h w = (emit w (fetch_errors its), Exc OutOfBoundsDatetime).
Proof.
  intros Hits Hst Hrow Hbad. rewrite get_tweets_df_eq, Hits. f_equal.
  destruct (to_datetime_column_cases (fetch_rows its)) as [[df' Hok] | ?]; [|done].
  apply to_datetime_column_Ok in Hok.
  destruct (Forall2_elem_of_l _ _ _ r Hok) as (r' & _ & [Hc _]);
    [apply fetch_rows_elem_of; by exists st|].
  congruence.
Qed.
End FetcherProperties.

(** ** Observational equivalence of API instances

    The fetchers observe an API only through what its cursor hands to the
    loop (the statuses, then the first failed request) and through
    [get_user]: two instances that agree on these for every handle cannot
    be told apart by [get_tweets_df] or [get_profile]. *)

Definition api_equiv (A1 A2 : TwitterAPI) : Prop :=
  ∀ h, cursor_items (@user_timeline_pages A1 h true) = cursor_items (@user_timeline_pages A2 h true) ∧
       @get_user A1 h = @get_user A2 h.

#[export] Instance api_equiv_equivalence : Equivalence api_equiv.
Proof.
  split.
  - done.
  - intros A1 A2 HA h. by destruct (HA h).
  - intros A1 A2 A3 H12 H23 h. destruct (H12 h), (H23 h). split; congruence.
Qed.

#[export] Instance get_tweets_df_proper :
  Proper (api_equiv ==> eq ==> eq ==> eq) (@get_tweets_df).
Proof. intros A1 A2 HA h ? <- w ? <-. rewrite !get_tweets_df_eq. by rewrite (proj1 (HA h)). Qed.

#[export] Instance get_profile_proper : Proper (api_equiv ==> eq ==> eq) (@get_profile).
Proof. intros A1 A2 HA h ? <-. unfold get_profile. by rewrite (proj2 (HA h)). Qed.

(** tweepy's cursor and the ideal API that serves every page agree on a
    table of accounts whose timelines have decreasing ids and no page the
    filter empties before a post that passes it. *)
Lemma cursor_api_equiv db :
  map_Forall (λ _ a, StronglySorted (λ a b, status_id b < status_id a) (acc_timeline a) ∧
                     no_gap (acc_timeline a) true) db →
  api_equiv (cursor_api db) (account_api db).
Proof.
  intros Hdb h. split; [|done]. cbn [user_timeline_pages cursor_api account_api].
  unfold cursor_timeline, accounts_timeline. destruct (db !! h) as [a|] eqn:Ha; [|done].
  destruct (Hdb h a Ha) as [Hs Hg].
  rewrite (list_fmap_compose (filter_page true) Ok), !cursor_items_Ok, filter_page_join.
  rewrite timeline_pages_join by (unfold page_size; lia).
  f_equal. apply (id_cursor_complete_from _ Hs _ None 0); [done|done|lia].
Qed.

(** C27. tweepy's cursor stops at a first page of replies: when the
    [page_size] newest statuses of an account are all replies, the first
    request with [exclude_replies=True] comes back empty, the cursor ends,
    and [get_tweets_df] returns the empty frame and prints nothing,
    whatever older posts of the user the timeline holds. *)
Theorem cursor_first_page_replies db h a w :
  db !! h = Some a → Forall (λ st, is_reply st = true) (take page_size (acc_timeline a)) →
  @get_tweets_df (cursor_api db) h w = (w, Ok []).
Proof.
  intros Ha Hrep. rewrite get_tweets_df_eq. cbn [user_timeline_pages cursor_api].
  unfold cursor_timeline. rewrite Ha.
  assert (user_timeline (acc_timeline a) None true = []) as Hp.
  { unfold user_timeline, filter_page, below. apply filter_Forall_none.
    eapply Forall_impl; [exact Hrep|]. by intros st ->. }
  destruct (length (acc_timeline a)); cbn [id_cursor]; [|rewrite Hp]; simpl; by rewrite emit_nil.
Qed.

(** ** Runs on the sample accounts *)

Module FetcherSamples.
Import Samples.

(** The two rows of [bob]: the status with a newline inside the marker
    passes the filter, and its stored text contains ["RT @"]. *)
Definition bob_row_2003 : row timestamp :=
  mk_row 2003 ((jan1 + 2 * hour) * 10 ^ 9) (of_string "RT @carol is here") 4 2.
Definition bob_row_2001 : row timestamp :=
  mk_row 2001 ((jan1 + hour) * 10 ^ 9) (of_string "goodmorning") 1 3.
Definition bob_w : world := {| stdout := [AttributeError "retweet_count"] |}.

Lemma bob_fetch :
  @get_tweets_df sample_api (of_string "bob") w0 = (bob_w, Ok [bob_row_2003; bob_row_2001]).
Proof. vm_compute. reflexivity. Qed.

Lemma get_tweets_df_no_marker_witness :
  ∃ st page t, Ok page ∈ @user_timeline_pages sample_api (of_string "bob") true ∧ st ∈ page ∧
               st_text st = Some t ∧ ¬ substr rt_marker t ∧
               st_id st = Some (tweet_id bob_row_2003) ∧ text bob_row_2003 = strip_newlines t ∧
               st_favorite_count st = Some (fav bob_row_2003) ∧
               st_retweet_count st = Some (retweets bob_row_2003).
Proof.
  apply (@get_tweets_df_no_marker sample_api (of_string "bob") w0 bob_w
           [bob_row_2003; bob_row_2001] bob_row_2003).
  - vm_compute. reflexivity.
  - by left.
Defined.

Lemma get_tweets_df_no_replies_witness :
  ∃ st page, Ok page ∈ @user_timeline_pages sample_api (of_string "bob") true ∧ st ∈ page ∧
             is_reply st = false ∧ st_id st = Some (tweet_id bob_row_2001).
Proof.
  apply (@get_tweets_df_no_replies sample_api (of_string "bob") w0 bob_w
           [bob_row_2003; bob_row_2001] bob_row_2001).
  - vm_compute. reflexivity.
  - by right; left.
Defined.

Lemma get_tweets_df_fault_tolerant_witness :
  @get_tweets_df sample_api (of_string "bob") w0 =
    (emit w0 (fetch_errors [bob_reshare] ++ AttributeError "retweet_count" ::
              fetch_errors [bob_split_marker; bob_plain]),
     to_datetime_column (fetch_rows [bob_reshare] ++
                         fetch_rows [bob_split_marker; bob_plain])).
Proof.
  apply (@get_tweets_df_fault_tolerant sample_api (of_string "bob") w0
           [bob_reshare] bob_no_counts [bob_split_marker; bob_plain]).
  - vm_compute. reflexivity.
  - vm_compute. reflexivity.
Defined.

Definition dave_row : row pydatetime :=
  mk_row 4001 (10413792000 * 10 ^ 6) (of_string "hello from the future") 1 1.

Lemma get_tweets_df_out_of_bounds_witness :
  @get_tweets_df sample_api (of_string "dave") w0 =
    (emit w0 (fetch_errors [dave_future]), Exc OutOfBoundsDatetime).
Proof.
  apply (@get_tweets_df_out_of_bounds sample_api (of_string "dave") w0 [dave_future]
           dave_future dave_row).
  - vm_compute. reflexivity.
  - by left.
  - vm_compute. reflexivity.
  - vm_compute. reflexivity.
Defined.

(** [bob]'s plain post, whose text has a newline, is a row. *)
Lemma get_tweets_df_complete_witness :
  ∃ ns, to_datetime64 ((jan1 + hour) * 10 ^ 6) = Ok ns ∧
        mk_row 2001 ns (strip_newlines (of_string "good" ++ [newline] ++ of_string "morning")) 1 3
          ∈ [bob_row_2003; bob_row_2001].
Proof.
  apply (@get_tweets_df_complete sample_api (of_string "bob") w0 bob_w
           [bob_row_2003; bob_row_2001] (filter_page true bob_timeline) bob_plain
           (of_string "good" ++ [newline] ++ of_string "morning") 2001 ((jan1 + hour) * 10 ^ 6) 1 3).
  - vm_compute. reflexivity.
  - vm_compute. by left.
  - vm_compute. by do 3 right; left.
  - reflexivity.
  - rewrite <- py_contains_spec. vm_compute. discriminate.
  - reflexivity.
  - reflexivity.
  - reflexivity.
  - reflexivity.
Defined.

(** [bob]'s ["RT\n @carol is here"] is kept with the marker in its text. *)
Lemma get_tweets_df_marker_survives_witness :
  ∃ r, r ∈ [bob_row_2003; bob_row_2001] ∧ st_id bob_split_marker = Some (tweet_id r) ∧
       substr rt_marker (text r).
Proof.
  apply (@get_tweets_df_marker_survives sample_api (of_string "bob") w0 bob_w
           [bob_row_2003; bob_row_2001] (filter_page true bob_timeline) bob_split_marker
           (of_string "RT" ++ [newline] ++ of_string " @carol is here")).
  - vm_compute. reflexivity.
  - vm_compute. by left.
  - vm_compute. by do 2 right; left.
  - reflexivity.
  - rewrite <- py_contains_spec. vm_compute. discriminate.
  - apply py_contains_spec. vm_compute. reflexivity.
  - by eexists.
  - by eexists.
  - by eexists.
  - by eexists.
Defined.

(** [frank]'s twenty newest statuses are replies; his post of his own,
    older, is never fetched through the cursor. *)
Lemma cursor_first_page_replies_witness :
  @get_tweets_df (cursor_api sample_db) (of_string "frank") w0 = (w0, Ok []).
Proof.
  apply (cursor_first_page_replies sample_db (of_string "frank")
           (mk_account frank_user frank_timeline)).
  - vm_compute. reflexivity.
  - vm_compute. repeat constructor.
Defined.

(** With the pages served in full, the same post is fetched. *)
Lemma frank_all_pages :
  @get_tweets_df sample_api (of_string "frank") w0 =
    (w0, Ok [mk_row 5001 (jan1 * 10 ^ 9) (of_string "new year") 2 3]).
Proof. vm_compute. reflexivity. Qed.
End FetcherSamples.
