(* ===== verification/Aggregator.v ===== *)
(** The aggregator [get_grouped_df] (src/app.py, lines 90-92):
    [tweets_df.groupby(tweets_df.created_at.dt.date).sum()
       .sort_values(by="created_at", ascending=False)].

    [groupby] hashes the rows by their calendar date ([dt_date], a
    [pydate]); [sum] adds, per group and in row order, every int64 column
    of the frame: [tweet_id], [fav] and [retweets] ([created_at], a
    datetime column, cannot be summed and is dropped; the group key becomes
    the index, named [created_at], which is what
    [sort_values(by="created_at")] sorts on).  numpy's int64 additions wrap
    around.  The groups are modelled as a [gmap] from the date to the three
    running sums, then listed and sorted by the [SortValues] contract.
    Python orders dates by (year, month, day); the sort key is the date's
    day number, which orders the computed dates the same way
    ([civil_from_days_lt_iff]). *)

From S2P Require Import Prelude PyStr Calendar Pandas.

(** A row of the grouped frame: the date and the sums of the three int64
    columns. *)
Record grouped_row := mk_grouped {
  g_date : pydate;
  g_tweet_id : Z;
  g_fav : Z;
  g_retweets : Z
}.

(** The running sums of one group. *)
Definition sums := (Z * Z * Z)%type.

(** Adding one row to its group's sums, in int64. *)
Definition add_row (acc : sums) (r : row timestamp) : sums :=
  let '(a, b, c) := acc in (add64 a (tweet_id r), add64 b (fav r), add64 c (retweets r)).

(** [groupby(created_at.dt.date).sum()]: one pass over the rows, each
    added to the sums of its date (a new date starts from zero). *)
Definition groupby_sum (df : list (row timestamp)) : gmap pydate sums :=
  foldl (λ m r, let d := dt_date (created_at r) in
                <[d := add_row (default (0, 0, 0) (m !! d)) r]> m) ∅ df.

Definition grouped_of (p : pydate * sums) : grouped_row :=
  let '(d, (a, b, c)) := p in mk_grouped d a b c.

(** The sort key of the index [created_at]: the date's day number. *)
Definition date_key (g : grouped_row) : Z := days_from_civil (g_date g).

Section Aggregator.
Context `{SortValues}.

(** [get_grouped_df(tweets_df)], lines 90-92. *)
Definition get_grouped_df (df : list (row timestamp)) : list grouped_row :=
  sort_values date_key false (grouped_of <$> map_to_list (groupby_sum df)).
End Aggregator.

(** ** The reference: per date, the sums of the rows of that date *)

(** The rows of date [d], in frame order. *)
Definition rows_on (df : list (row timestamp)) (d : pydate) : list (row timestamp) :=
  filter (λ r, dt_date (created_at r) = d) df.

(** The group of date [d] as a specification: the int64 sums of its rows. *)
Definition group_total (df : list (row timestamp)) (d : pydate) : grouped_row :=
  let l := rows_on df d in
  mk_grouped d (zsum64 tweet_id l) (zsum64 fav l) (zsum64 retweets l).

(** The dates present in the frame, newest first, each once. *)
Definition dates_desc (df : list (row timestamp)) : list pydate :=
  merge_sort (key_le days_from_civil false) (remove_dups ((λ r, dt_date (created_at r)) <$> df)).

Definition grouped_ref (df : list (row timestamp)) : list grouped_row :=
  group_total df <$> dates_desc df.

(** ** The groupby fold in closed form *)

Definition zero_sums : sums := (0, 0, 0).

Lemma foldl_add_row_wrap a b c l :
  foldl add_row (wrap64 a, wrap64 b, wrap64 c) l =
    (wrap64 (a + zsum tweet_id l), wrap64 (b + zsum fav l), wrap64 (c + zsum retweets l)).
Proof.
  revert a b c. induction l as [|r l IH]; intros a b c; simpl.
  - by rewrite !Z.add_0_r.
  - unfold add64. rewrite !wrap64_add_wrap_l, IH. unfold zsum; simpl.
    by rewrite !Z.add_assoc.
Qed.

(** The sums of a group are the int64 sums of its rows. *)
Lemma foldl_add_row l :
  foldl add_row zero_sums l = (zsum64 tweet_id l, zsum64 fav l, zsum64 retweets l).
Proof.
  rewrite !zsum64_wrap. pose proof (foldl_add_row_wrap 0 0 0 l) as E.
  rewrite !Z.add_0_l in E. exact E.
Qed.

Lemma rows_on_cons r df d :
  rows_on (r :: df) d = if decide (dt_date (created_at r) = d) then r :: rows_on df d else rows_on df d.
Proof. unfold rows_on. by rewrite filter_cons. Qed.

Lemma groupby_fold_lookup (m : gmap pydate sums) df d :
  foldl (λ m r, let d := dt_date (created_at r) in
                <[d := add_row (default zero_sums (m !! d)) r]> m) m df !! d =
  match rows_on df d with
  | [] => m !! d
  | l => Some (foldl add_row (default zero_sums (m !! d)) l)
  end.
Proof.
  revert m. induction df as [|r df IH]; intros m; [done|].
  simpl. rewrite IH, rows_on_cons. case_decide as Hd.
  - subst d. rewrite lookup_insert_eq. by destruct (rows_on df _).
  - rewrite lookup_insert_ne by done. done.
Qed.

Lemma groupby_sum_lookup df d :
  groupby_sum df !! d =
  match rows_on df d with
  | [] => None
  | l => Some (zsum64 tweet_id l, zsum64 fav l, zsum64 retweets l)
  end.
Proof.
  unfold groupby_sum. rewrite (groupby_fold_lookup ∅ df d), lookup_empty.
  destruct (rows_on df d) eqn:E; [done|]. simpl. by rewrite <- foldl_add_row.
Qed.

(** The groups before sorting are exactly the reference groups of the
    days present in the frame. *)
Lemma groups_elem_of df g :
  g ∈ grouped_of <$> map_to_list (groupby_sum df) ↔
  rows_on df (g_date g) ≠ [] ∧ g = group_total df (g_date g).
Proof.
  rewrite list_elem_of_fmap. split.
  - intros ([d [[a b] c]] & -> & Hin%elem_of_map_to_list).
    rewrite groupby_sum_lookup in Hin. simpl.
    destruct (rows_on df d) eqn:E; cbv zeta in Hin; simplify_eq. split; [done|].
    unfold group_total. by rewrite E.
  - destruct g as [d a b c]. simpl. unfold group_total. intros [Hne [= -> -> ->]].
    exists (d, (zsum64 tweet_id (rows_on df d), zsum64 fav (rows_on df d),
                zsum64 retweets (rows_on df d))).
    split; [done|]. apply elem_of_map_to_list. rewrite groupby_sum_lookup.
    by destruct (rows_on df d).
Qed.

Lemma groups_dates_NoDup df : NoDup (g_date <$> (grouped_of <$> map_to_list (groupby_sum df))).
Proof.
  rewrite <- list_fmap_compose.
  rewrite (list_fmap_ext _ fst); [apply NoDup_fst_map_to_list|].
  by intros _ [? [[??]?]] _.
Qed.

Lemma rows_on_nonempty df d :
  rows_on df d ≠ [] ↔ d ∈ (λ r, dt_date (created_at r)) <$> df.
Proof.
  unfold rows_on. rewrite list_elem_of_fmap. split.
  - destruct (filter _ df) as [|r l] eqn:E; [done|]. intros _.
    assert (r ∈ filter (λ r, dt_date (created_at r) = d) df) as Hr by (rewrite E; left).
    apply list_elem_of_filter in Hr as [? ?]. by exists r.
  - intros (r & -> & Hr) Hnil.
    assert (r ∈ filter (λ r', dt_date (created_at r') = dt_date (created_at r)) df) as Hin
      by (by apply list_elem_of_filter).
    rewrite Hnil in Hin. set_solver.
Qed.

(** The date of a non-empty group is a computed date, so its day number
    determines it. *)
Lemma rows_on_date df d : rows_on df d ≠ [] → d = civil_from_days (days_from_civil d).
Proof.
  intros (r & -> & _)%rows_on_nonempty%list_elem_of_fmap.
  by rewrite days_from_civil_dt_date.
Qed.

Lemma date_key_inj df x y :
  rows_on df (g_date x) ≠ [] → rows_on df (g_date y) ≠ [] →
  date_key x = date_key y → g_date x = g_date y.
Proof.
  intros Hx%rows_on_date Hy%rows_on_date. unfold date_key. intros E.
  by rewrite Hx, Hy, E.
Qed.

(** Groups with the same sort key are the same group. *)
Lemma groups_key_inj df x y :
  x ∈ grouped_of <$> map_to_list (groupby_sum df) →
  y ∈ grouped_of <$> map_to_list (groupby_sum df) →
  date_key x = date_key y → x = y.
Proof.
  intros [Hx Ex]%groups_elem_of [Hy Ey]%groups_elem_of Hk.
  rewrite Ex, Ey. f_equal. by eapply date_key_inj.
Qed.

Lemma groups_keys_NoDup df : NoDup (date_key <$> (grouped_of <$> map_to_list (groupby_sum df))).
Proof.
  apply NoDup_fmap_2_strong; [|eapply NoDup_fmap_1, groups_dates_NoDup].
  intros x y Hx Hy. apply (groups_key_inj df); done.
Qed.

(** Before sorting, the groups are the reference groups of the distinct
    dates of the frame, each once. *)
Lemma groups_perm df :
  grouped_of <$> map_to_list (groupby_sum df) ≡ₚ
    group_total df <$> remove_dups ((λ r, dt_date (created_at r)) <$> df).
Proof.
  apply NoDup_Permutation.
  - eapply NoDup_fmap_1, groups_dates_NoDup.
  - apply NoDup_fmap_2; [intros a b Hab; by apply (f_equal g_date) in Hab|].
    apply NoDup_remove_dups.
  - intros g. rewrite groups_elem_of, list_elem_of_fmap.
    setoid_rewrite elem_of_remove_dups. setoid_rewrite <- rows_on_nonempty.
    split; [intros [? ?]; by exists (g_date g)|intros (d & -> & ?); done].
Qed.

(** When the summands are non-negative and their totals fit in int64, the
    int64 sums of a date's rows are exact. *)
Lemma rows_on_sums_exact df d :
  Forall (λ r, 0 ≤ fav r ∧ 0 ≤ retweets r) df →
  zsum fav df ≤ int64_max → zsum retweets df ≤ int64_max →
  zsum64 fav (rows_on df d) = zsum fav (rows_on df d) ∧
  zsum64 retweets (rows_on df d) = zsum retweets (rows_on df d).
Proof.
  intros Hpos Hf Hr. rewrite !zsum64_wrap.
  assert (Forall (λ r, 0 ≤ fav r) df) as Hf0 by (eapply Forall_impl; [exact Hpos|]; naive_solver).
  assert (Forall (λ r, 0 ≤ retweets r) df) as Hr0 by (eapply Forall_impl; [exact Hpos|]; naive_solver).
  pose proof (zsum_filter_le fav (λ r, dt_date (created_at r) = d) df Hf0).
  pose proof (zsum_filter_le retweets (λ r, dt_date (created_at r) = d) df Hr0).
  unfold rows_on, int64_max in *.
  split; apply wrap64_small; unfold int64_min, int64_max; lia.
Qed.

(** The rows of the frame are the rows of its dates, date by date. *)
Lemma rows_on_partition df :
  df ≡ₚ mjoin (rows_on df <$> remove_dups ((λ r, dt_date (created_at r)) <$> df)).
Proof.
  apply (filter_key_partition (λ r, dt_date (created_at r))); [apply NoDup_remove_dups|].
  intros r Hr. apply elem_of_remove_dups. by apply (list_elem_of_fmap_2 (λ r, dt_date (created_at r))).
Qed.

(** ** Properties of [get_grouped_df] *)

Section AggregatorProperties.
Context `{SortValues}.

Lemma get_grouped_df_elem_of df g :
  g ∈ get_grouped_df df ↔ rows_on df (g_date g) ≠ [] ∧ g = group_total df (g_date g).
Proof. unfold get_grouped_df. rewrite sort_values_elem_of. apply groups_elem_of. Qed.

(** C1. Aggregation: a group of the result holds, for its date, the sum of
    [favorite_count], of [retweet_count] and of the ids of the rows of
    that date, each as numpy computes it in int64 (the mathematical sum
    wrapped to 64 bits); and no group is empty. *)
Theorem get_grouped_df_sums df g :
  g ∈ get_grouped_df df →
  rows_on df (g_date g) ≠ [] ∧
  g_fav g = wrap64 (zsum fav (rows_on df (g_date g))) ∧
  g_retweets g = wrap64 (zsum retweets (rows_on df (g_date g))) ∧
  g_tweet_id g = wrap64 (zsum tweet_id (rows_on df (g_date g))).
Proof.
  intros [Hne Hg]%get_grouped_df_elem_of. rewrite Hg. simpl.
  by rewrite !zsum64_wrap.
Qed.

(** C2. Ordering: the dates of the result are strictly decreasing in
    Python's order on dates (year, then month, then day), so no date
    appears twice. *)
Theorem get_grouped_df_sorted df :
  StronglySorted (λ g1 g2, date_lt (g_date g2) (g_date g1)) (get_grouped_df df).
Proof.
  eapply (StronglySorted_weaken _ _ (λ g, rows_on df (g_date g) ≠ [])).
  - apply Forall_forall. by intros g [? _]%get_grouped_df_elem_of.
  - intros x y Hx%rows_on_date Hy%rows_on_date. rewrite Hx, Hy.
    apply civil_from_days_lt.
  - apply sorted_desc_strict; [apply sort_values_sorted|].
    unfold get_grouped_df. rewrite sort_values_perm. apply groups_keys_NoDup.
Qed.

Lemma get_grouped_df_nil : get_grouped_df [] = [].
Proof.
  unfold get_grouped_df, groupby_sum. cbn [foldl].
  rewrite map_to_list_empty. apply sort_values_nil.
Qed.

(** Every date of the frame has its group. *)
Lemma get_grouped_df_complete df r :
  r ∈ df → group_total df (dt_date (created_at r)) ∈ get_grouped_df df.
Proof.
  intros Hr. apply get_grouped_df_elem_of. simpl. split; [|done].
  apply rows_on_nonempty. by apply (list_elem_of_fmap_2 (λ r, dt_date (created_at r))).
Qed.

(** The groups have pairwise distinct dates, so every lawful sort orders
    them alike. *)
Lemma get_grouped_df_any_sort df :
  get_grouped_df df = @get_grouped_df merge_sort_values df.
Proof.
  apply sort_values_unique.
  - apply groups_key_inj.
  - apply (sort_values_sorted (SortValues := merge_sort_values)).
  - apply (sort_values_perm (SortValues := merge_sort_values)).
Qed.

(** C9. The hash-based groupby followed by the sort computes the
    reference: for each date present, newest first, the sums of the rows
    of that date.  The result does not depend on the sorting algorithm. *)
Theorem get_grouped_df_ref df : get_grouped_df df = grouped_ref df.
Proof.
  apply sort_values_unique.
  - apply groups_key_inj.
  - unfold grouped_ref, dates_desc. eapply Sorted_fmap; [|apply Sorted_merge_sort, _].
    intros a b. unfold key_le, date_key. done.
  - rewrite groups_perm. unfold grouped_ref, dates_desc. by rewrite merge_sort_Permutation.
Qed.

(** C10. Bounds: when favourites and retweets are non-negative and their
    totals over the whole frame fit in int64, no group sum wraps around:
    each group holds the exact sums of its date. *)
Theorem get_grouped_df_exact df g :
  Forall (λ r, 0 ≤ fav r ∧ 0 ≤ retweets r) df →
  zsum fav df ≤ int64_max → zsum retweets df ≤ int64_max →
  g ∈ get_grouped_df df →
  g_fav g = zsum fav (rows_on df (g_date g)) ∧
  g_retweets g = zsum retweets (rows_on df (g_date g)).
Proof.
  intros Hpos Hf Hr [_ Hg]%get_grouped_df_elem_of. rewrite Hg. simpl.
  by apply rows_on_sums_exact.
Qed.

(** C28. Conservation: when favourites and retweets are non-negative and
    their totals fit in int64, the favourites of all groups add up to the
    favourites of the whole frame, and likewise the retweets: grouping
    loses and duplicates no row. *)
Theorem get_grouped_df_totals df :
  Forall (λ r, 0 ≤ fav r ∧ 0 ≤ retweets r) df →
  zsum fav df ≤ int64_max → zsum retweets df ≤ int64_max →
  zsum g_fav (get_grouped_df df) = zsum fav df ∧
  zsum g_retweets (get_grouped_df df) = zsum retweets df.
Proof.
  intros Hpos Hf Hr. unfold get_grouped_df. rewrite !sort_values_perm, !groups_perm, !zsum_fmap.
  rewrite (zsum_perm fav _ _ (rows_on_partition df)), (zsum_perm retweets _ _ (rows_on_partition df)),
    !zsum_join, !zsum_fmap.
  split; apply zsum_ext; intros d _; simpl; apply rows_on_sums_exact; done.
Qed.
End AggregatorProperties.

(** ** The spec's example frame (section 8) *)

Module AggregatorSamples.
(** Three rows: 2024-01-01 09:00 (5 favourites, 10 retweets),
    2024-01-01 18:00 (3, 1) and 2024-01-02 08:00 (0, 20). *)
Definition example_df : list (row timestamp) :=
  [mk_row 1003 (1704182400 * 10 ^ 9) (of_string "back to work") 0 20;
   mk_row 1002 (1704132000 * 10 ^ 9) (of_string "dinner") 3 1;
   mk_row 1001 (1704099600 * 10 ^ 9) (of_string "happy new year") 5 10].

Lemma example_grouped :
  @get_grouped_df merge_sort_values example_df =
    [mk_grouped (mk_date 2024 1 2) 1003 0 20; mk_grouped (mk_date 2024 1 1) 2003 8 11].
Proof. vm_compute. reflexivity. Qed.

Lemma get_grouped_df_sums_witness :
  let g := mk_grouped (mk_date 2024 1 1) 2003 8 11 in
  rows_on example_df (g_date g) ≠ [] ∧
  g_fav g = wrap64 (zsum fav (rows_on example_df (g_date g))) ∧
  g_retweets g = wrap64 (zsum retweets (rows_on example_df (g_date g))) ∧
  g_tweet_id g = wrap64 (zsum tweet_id (rows_on example_df (g_date g))).
Proof.
  apply (@get_grouped_df_sums merge_sort_values example_df (mk_grouped (mk_date 2024 1 1) 2003 8 11)).
  vm_compute. right. left.
Defined.

Lemma get_grouped_df_exact_witness :
  let g := mk_grouped (mk_date 2024 1 1) 2003 8 11 in
  g_fav g = zsum fav (rows_on example_df (g_date g)) ∧
  g_retweets g = zsum retweets (rows_on example_df (g_date g)).
Proof.
  apply (@get_grouped_df_exact merge_sort_values example_df (mk_grouped (mk_date 2024 1 1) 2003 8 11)).
  - vm_compute. repeat constructor; discriminate.
  - vm_compute. discriminate.
  - vm_compute. discriminate.
  - vm_compute. right. left.
Defined.
Lemma get_grouped_df_totals_witness :
  zsum g_fav (@get_grouped_df merge_sort_values example_df) = zsum fav example_df ∧
  zsum g_retweets (@get_grouped_df merge_sort_values example_df) = zsum retweets example_df.
Proof.
  apply get_grouped_df_totals.
  - vm_compute. repeat constructor; discriminate.
  - vm_compute. discriminate.
  - vm_compute. discriminate.
Defined.
End AggregatorSamples.
