(* ===== verification/Ranker.v ===== *)
(** The ranker [get_sorted_df] (src/app.py, lines 95-97):
    [tweets_df.sort_values(by="retweets", ascending=False)], against the
    [SortValues] contract of pandas' sort. *)

From S2P Require Import Prelude PyStr Pandas.

Section Ranker.
Context `{SortValues}.

(** [get_sorted_df(tweets_df)], lines 95-97. *)
Definition get_sorted_df (df : list (row timestamp)) : list (row timestamp) :=
  sort_values retweets false df.
End Ranker.

Section RankerProperties.
Context `{SortValues}.

(** C3. Ranking: the result is a permutation of the raw rows, ordered by
    [retweets] from the largest down. *)
Theorem get_sorted_df_ranked df :
  get_sorted_df df ≡ₚ df ∧
  Sorted (λ r1 r2, retweets r2 ≤ retweets r1) (get_sorted_df df).
Proof.
  split; [apply sort_values_perm|].
  exact (sort_values_sorted _ retweets false df).
Qed.

Lemma get_sorted_df_nil : get_sorted_df [] = [].
Proof. apply sort_values_nil. Qed.

(** With pairwise distinct retweet counts, the ranking is the one of any
    other lawful sort, for instance the merge sort. *)
Lemma get_sorted_df_distinct df :
  NoDup (retweets <$> df) →
  get_sorted_df df = @get_sorted_df merge_sort_values df.
Proof.
  intros Hnd. apply sort_values_unique.
  - intros x y Hx Hy Hxy. destruct (decide (x = y)) as [|Hne]; [done|].
    exfalso. apply list_elem_of_split in Hx as (l1 & l2 & ->).
    rewrite fmap_app, fmap_cons in Hnd. apply NoDup_app in Hnd as (_ & Hdis & Hnd).
    apply NoDup_cons in Hnd as [Hnot _].
    assert (y ∈ l1 ∨ y ∈ l2) as [Hy1|Hy2] by set_solver.
    + apply (Hdis (retweets y)); [by apply list_elem_of_fmap_2 | rewrite <- Hxy; left].
    + apply Hnot. rewrite Hxy. by apply list_elem_of_fmap_2.
  - apply (sort_values_sorted (SortValues := merge_sort_values)).
  - apply (sort_values_perm (SortValues := merge_sort_values)).
Qed.
End RankerProperties.

(** C12. The order of ties is unspecified, but it does not show in the
    ranking: two lawful sorts, or two orderings of the same rows, give the
    same sequence of retweet counts. *)
Theorem get_sorted_df_keys_determined (S1 S2 : SortValues) df1 df2 :
  df1 ≡ₚ df2 →
  retweets <$> @get_sorted_df S1 df1 = retweets <$> @get_sorted_df S2 df2.
Proof.
  intros Hp.
  apply (Sorted_unique (zle_dir false)); [apply sort_values_keys_sorted..|].
  unfold get_sorted_df. by rewrite !sort_values_perm, Hp.
Qed.

Module RankerSamples.
Definition example_df : list (row timestamp) :=
  [mk_row 1003 (1704182400 * 10 ^ 9) (of_string "back to work") 0 20;
   mk_row 1002 (1704132000 * 10 ^ 9) (of_string "dinner") 3 1;
   mk_row 1001 (1704099600 * 10 ^ 9) (of_string "happy new year") 5 10].

(** The same rows, the first two swapped. *)
Definition swapped_df : list (row timestamp) :=
  [mk_row 1002 (1704132000 * 10 ^ 9) (of_string "dinner") 3 1;
   mk_row 1003 (1704182400 * 10 ^ 9) (of_string "back to work") 0 20;
   mk_row 1001 (1704099600 * 10 ^ 9) (of_string "happy new year") 5 10].

Lemma get_sorted_df_keys_determined_witness :
  retweets <$> @get_sorted_df merge_sort_values example_df =
  retweets <$> @get_sorted_df merge_sort_values swapped_df.
Proof.
  apply (get_sorted_df_keys_determined merge_sort_values merge_sort_values
           example_df swapped_df).
  constructor.
Defined.
End RankerSamples.
