(* ===== verification/Handler.v ===== *)
(** The request handler: the Flask view [index] (src/app.py, lines 38-55)
    and the way Flask turns its outcome into a response.

    [index] composes the components in the order of the source: the
    fetcher, the aggregator and the ranker on the fetched frame, then the
    profile fetcher, evaluated as an argument of [render_template].  The
    rendered page is the record of the values passed to the template.
    Flask itself (routing and error responses) is modelled from the spec:
    [GET] and [POST] reach the view, and [HEAD], which Flask adds and
    runs as [GET]; [OPTIONS] is answered without the view, any other
    method with 405; a missing form field raises the
    [BadRequestKeyError] that Flask answers with 400; any other exception
    escaping the view is answered with a generic 500.  The last section compares
    the handler over two instances of the API: equivalent instances give
    equal answers, and tweepy's cursor refines the all-pages API. *)

From S2P Require Import Prelude PyStr Calendar Pandas Tweepy Fetcher Aggregator Ranker.

(** The request methods; [HEAD] and [OPTIONS] are the two Flask adds to
    every route. *)
Inductive http_method := GET | HEAD | POST | OPTIONS | PUT | DELETE.

Record request := mk_request {
  method : http_method;
  form : gmap string pystr   (** [request.form] *)
}.

(** The values [render_template] receives on a POST. *)
Record page_data := mk_page {
  pd_profile : profile;
  pd_tweets : list (row timestamp);
  pd_grouped : list grouped_row;
  pd_sorted : list (row timestamp)
}.

Inductive response :=
  | Render (data : option page_data)   (** 200, [index.html] *)
  | BadRequest                         (** 400 *)
  | ServerError (e : py_exc)           (** 500, the generic error page *)
  | AllowedMethods                     (** 200, the automatic answer to [OPTIONS] *)
  | MethodNotAllowed.                  (** 405 *)

(** Flask's answer to an exception escaping the view: the
    [BadRequestKeyError] that [request.form[k]] raises is an HTTP
    exception, answered 400; anything else, a plain [KeyError] included,
    is the generic 500. *)
Definition error_response (e : py_exc) : response :=
  match e with
  | BadRequestKeyError _ => BadRequest
  | _ => ServerError e
  end.

Section Handler.
Context `{TwitterAPI} `{SortValues}.

(** [index()], lines 38-55. *)
Definition index (req : request) : PyM response :=
  match method req with
  | POST =>
      match form req !! "user_id" with
      | None => raise (BadRequestKeyError "user_id")
      | Some user_id =>
          tweets_df ← get_tweets_df user_id;
          let grouped_df := get_grouped_df tweets_df in
          let sorted_df := get_sorted_df tweets_df in
          profile ← lift (get_profile user_id);
          mret (Render (Some (mk_page profile tweets_df grouped_df sorted_df)))
      end
  | _ => mret (Render None)
  end.

(** Flask's dispatch of the route [/] with [methods=["GET", "POST"]],
    and its answer to an exception escaping the view.  Flask adds [HEAD]
    to a route that has [GET] (the view runs, the body is dropped, which
    the record of the page does not show) and answers [OPTIONS] itself
    ([provide_automatic_options]) without running the view; any other
    method is 405. *)
Definition serve (req : request) (w : world) : world * response :=
  match method req with
  | OPTIONS => (w, AllowedMethods)
  | GET | HEAD | POST =>
      match index req w with
      | (w', Ok resp) => (w', resp)
      | (w', Exc e) => (w', error_response e)
      end
  | _ => (w, MethodNotAllowed)
  end.
End Handler.

(** ** Properties of the handler *)

Section HandlerProperties.
Context `{TwitterAPI} `{SortValues}.

(** A POST carrying a handle runs the fetch; on success, the profile;
    then renders. *)
Lemma index_post req h w :
  method req = POST → form req !! "user_id" = Some h →
  index req w =
    match get_tweets_df h w with
    | (w', Ok df) =>
        match get_profile h with
        | Ok p => (w', Ok (Render (Some (mk_page p df (get_grouped_df df) (get_sorted_df df)))))
        | Exc e => (w', Exc e)
        end
    | (w', Exc e) => (w', Exc e)
    end.
Proof.
  intros Hm Hf. unfold index. rewrite Hm, Hf. unfold_pym.
  destruct (get_tweets_df h w) as [w' [df|e]]; [|done].
  by destruct (get_profile h).
Qed.

Lemma serve_post req h w :
  method req = POST → form req !! "user_id" = Some h →
  serve req w =
    match get_tweets_df h w with
    | (w', Ok df) =>
        match get_profile h with
        | Ok p => (w', Render (Some (mk_page p df (get_grouped_df df) (get_sorted_df df))))
        | Exc e => (w', error_response e)
        end
    | (w', Exc e) => (w', error_response e)
    end.
Proof.
  intros Hm Hf. unfold serve. rewrite Hm, (index_post req h w Hm Hf).
  destruct (get_tweets_df h w) as [w' [df|e]]; [|done].
  by destruct (get_profile h).
Qed.

(** C13. One request, one fetch: a rendered page holds the frame of one
    call of [get_tweets_df] for the submitted handle, and the grouped
    and ranked tables are computed from that same frame; there is no
    partial render: a page is rendered only when the fetch and the
    profile both succeeded. *)
Theorem serve_page_consistent req h w w' pd :
  method req = POST → form req !! "user_id" = Some h →
  serve req w = (w', Render (Some pd)) →
  get_tweets_df h w = (w', Ok (pd_tweets pd)) ∧
  get_profile h = Ok (pd_profile pd) ∧
  pd_grouped pd = get_grouped_df (pd_tweets pd) ∧
  pd_sorted pd = get_sorted_df (pd_tweets pd).
Proof.
  intros Hm Hf. rewrite (serve_post req h w Hm Hf).
  destruct (get_tweets_df h w) as [w1 [df|[]]]; try done.
  destruct (get_profile h) as [p|[]]; intros [= <- <-]; done.
Qed.

(** C6. An account with no qualifying post: the raw, grouped and ranked
    tables are all empty, and no error is raised. *)
Theorem serve_empty_account req h w its u :
  method req = POST → form req !! "user_id" = Some h →
  cursor_items (user_timeline_pages h true) = (its, None) →
  fetch_rows its = [] →
  get_user h = Ok u →
  serve req w =
    (emit w (fetch_errors its),
     Render (Some (mk_page (mk_profile (u_id u) h (u_profile_image_url u) (u_description u))
                           [] [] []))).
Proof.
  intros Hm Hf Hits Hrows Hu. rewrite (serve_post req h w Hm Hf), get_tweets_df_eq, Hits, Hrows.
  unfold get_profile. rewrite Hu. simpl.
  by rewrite get_grouped_df_nil, get_sorted_df_nil.
Qed.

(** C14. An API failure (an unknown handle, a failed page request) is
    not handled: the user gets the generic error response, after the
    statuses fetched before the failure were processed and their errors
    printed. *)
Theorem serve_api_error req h w its e :
  method req = POST → form req !! "user_id" = Some h →
  cursor_items (user_timeline_pages h true) = (its, Some e) →
  (∀ k, e ≠ BadRequestKeyError k) →
  serve req w = (emit w (fetch_errors its), ServerError e).
Proof.
  intros Hm Hf Hits He. rewrite (serve_post req h w Hm Hf), get_tweets_df_eq, Hits.
  destruct e; try done. by destruct (He key).
Qed.

(** C30. Late failure: the profile is requested last (line 49), so when
    that request fails, the whole timeline has been fetched and converted
    and its per-status errors printed before the user gets the generic
    error response. *)
Theorem serve_profile_error req h w its df e :
  method req = POST → form req !! "user_id" = Some h →
  cursor_items (user_timeline_pages h true) = (its, None) →
  to_datetime_column (fetch_rows its) = Ok df →
  get_user h = Exc e → (∀ k, e ≠ BadRequestKeyError k) →
  serve req w = (emit w (fetch_errors its), ServerError e).
Proof.
  intros Hm Hf Hits Hconv Hu He. rewrite (serve_post req h w Hm Hf), get_tweets_df_eq, Hits.
  simpl. rewrite Hconv. unfold get_profile. rewrite Hu. simpl.
  destruct e; try done. by destruct (He key).
Qed.

(** C31. Spec properties 4 and 5 on the rendered page: every row of the
    raw table and of the ranked table comes from a status of a page that
    [user_timeline] returned for the requested handle, a status that is
    no reply and whose text does not contain ["RT @"]. *)
Theorem serve_page_rows_qualify req h w w' pd r :
  method req = POST → form req !! "user_id" = Some h →
  serve req w = (w', Render (Some pd)) →
  r ∈ pd_tweets pd ∨ r ∈ pd_sorted pd →
  ∃ st page t, Ok page ∈ user_timeline_pages h true ∧ st ∈ page ∧
               is_reply st = false ∧ st_text st = Some t ∧
               ¬ substr rt_marker t ∧ st_id st = Some (tweet_id r).
Proof.
  intros Hm Hf. rewrite (serve_post req h w Hm Hf).
  destruct (get_tweets_df h w) as [w1 [df|[]]] eqn:Hget; try done.
  destruct (get_profile h) as [p|[]]; intros [= <- <-]; try done.
  simpl. unfold get_sorted_df. rewrite sort_values_perm. intros Hr.
  assert (r ∈ df) as Hr' by (by destruct Hr).
  destruct (get_tweets_df_row_source h w w1 df r Hget Hr')
    as (st & r0 & page & Hp & Hst & (t & i & c & f & rt & ? & Hc & ? & _ & _ & _ & ->)%status_row_Some
        & _ & ->).
  exists st, page, t. rewrite <- py_contains_spec, Hc.
  split_and!; [done | done | by eapply user_timeline_no_replies | done | done | done].
Qed.

(** A POST without the [user_id] field is answered 400, before any API
    call. *)
Lemma serve_missing_user_id req w :
  method req = POST → form req !! "user_id" = None → serve req w = (w, BadRequest).
Proof. intros Hm Hf. unfold serve, index. by rewrite Hm, Hf. Qed.

End HandlerProperties.

(** ** The handler over two instances of the API

    [serve] observes the API through the fetchers only, so it answers
    alike on observationally equivalent instances ([api_equiv]); tweepy's
    cursor is such an instance of the ideal API on well-formed tables. *)

Section HandlerApi.
Context `{SortValues}.

Lemma serve_api_equiv A1 A2 req w :
  api_equiv A1 A2 → @serve A1 _ req w = @serve A2 _ req w.
Proof.
  intros HA. destruct (method req) eqn:Hm; try by unfold serve, index; rewrite Hm.
  destruct (form req !! "user_id") as [h|] eqn:Hf; [|by rewrite !serve_missing_user_id].
  rewrite (@serve_post A1 _ req h w Hm Hf), (@serve_post A2 _ req h w Hm Hf).
  by rewrite (get_tweets_df_proper A1 A2 HA h h eq_refl w w eq_refl), (get_profile_proper A1 A2 HA h h eq_refl).
Qed.

(** C32. Refinement of the ideal API by tweepy's cursor: on a table of
    accounts whose timelines have decreasing ids and no page emptied by
    [exclude_replies] before a post that passes it, every request gets
    the same response, and prints the same lines, whether the statuses
    come through tweepy's id cursor ([cursor_api]) or the API serves
    every page ([account_api]), the instance the other theorems are
    illustrated on. *)
Theorem serve_cursor_refines db req w :
  map_Forall (λ _ a, StronglySorted (λ a b, status_id b < status_id a) (acc_timeline a) ∧
                     no_gap (acc_timeline a) true) db →
  @serve (cursor_api db) _ req w = @serve (account_api db) _ req w.
Proof. intros Hdb. by apply serve_api_equiv, cursor_api_equiv. Qed.
End HandlerApi.

(** ** The spec's end-to-end example and runs on the sample accounts *)

Module HandlerSamples.
Import Samples.

Definition post_user_id (h : string) : request :=
  mk_request POST {[ "user_id" := of_string h ]}.

Definition alice_row_1003 : row timestamp :=
  mk_row 1003 ((jan1 + 32 * hour) * 10 ^ 9) (of_string "back to work") 0 20.
Definition alice_row_1002 : row timestamp :=
  mk_row 1002 ((jan1 + 18 * hour) * 10 ^ 9) (of_string "dinner") 3 1.
Definition alice_row_1001 : row timestamp :=
  mk_row 1001 ((jan1 + 9 * hour) * 10 ^ 9) (of_string "happy new year") 5 10.

Definition alice_profile : profile :=
  mk_profile 42 (of_string "alice") (of_string "https://pbs.twimg.com/alice.png") (of_string "hi").

Lemma alice_fetch :
  @get_tweets_df sample_api (of_string "alice") w0 =
    (w0, Ok [alice_row_1003; alice_row_1002; alice_row_1001]).
Proof. vm_compute. reflexivity. Qed.

Section AliceExample.
Context `{SortValues}.

(** C8. The spec's example: [alice] has three posts, two on 2024-01-01
    (5 favourites and 10 retweets, 3 and 1) and one on 2024-01-02 (0
    and 20).  The page groups them as [(2024-01-02, 0, 20)] then
    [(2024-01-01, 8, 11)], and ranks them by 20, 10 and 1 retweets,
    whatever the sorting algorithm. *)
Theorem serve_alice_example :
  ∃ pd, @serve sample_api _ (post_user_id "alice") w0 = (w0, Render (Some pd)) ∧
        pd_profile pd = alice_profile ∧
        (λ g, (g_date g, g_fav g, g_retweets g)) <$> pd_grouped pd =
          [(mk_date 2024 1 2, 0, 20); (mk_date 2024 1 1, 8, 11)] ∧
        pd_sorted pd = [alice_row_1003; alice_row_1001; alice_row_1002].
Proof.
  rewrite (@serve_post sample_api _ (post_user_id "alice") (of_string "alice") w0 eq_refl eq_refl),
    alice_fetch.
  assert (@get_profile sample_api (of_string "alice") = Ok alice_profile) as -> by
    (vm_compute; reflexivity).
  eexists. split; [reflexivity|]. simpl.
  rewrite get_grouped_df_any_sort, get_sorted_df_distinct by (vm_compute; repeat constructor; set_solver).
  split_and!; vm_compute; reflexivity.
Qed.
End AliceExample.

Definition alice_page : page_data :=
  mk_page alice_profile [alice_row_1003; alice_row_1002; alice_row_1001]
          [mk_grouped (mk_date 2024 1 2) 1003 0 20; mk_grouped (mk_date 2024 1 1) 2003 8 11]
          [alice_row_1003; alice_row_1001; alice_row_1002].

Lemma serve_page_consistent_witness :
  @get_tweets_df sample_api (of_string "alice") w0 = (w0, Ok (pd_tweets alice_page)) ∧
  @get_profile sample_api (of_string "alice") = Ok (pd_profile alice_page) ∧
  pd_grouped alice_page = @get_grouped_df merge_sort_values (pd_tweets alice_page) ∧
  pd_sorted alice_page = @get_sorted_df merge_sort_values (pd_tweets alice_page).
Proof.
  apply (@serve_page_consistent sample_api merge_sort_values (post_user_id "alice")
           (of_string "alice") w0 w0 alice_page).
  - reflexivity.
  - vm_compute. reflexivity.
  - vm_compute. reflexivity.
Defined.

(** [carol] has only a re-share. *)
Lemma serve_empty_account_witness :
  @serve sample_api merge_sort_values (post_user_id "carol") w0 =
    (emit w0 (fetch_errors carol_timeline),
     Render (Some (mk_page (mk_profile (u_id carol_user) (of_string "carol")
                                       (u_profile_image_url carol_user) (u_description carol_user))
                           [] [] []))).
Proof.
  apply (@serve_empty_account sample_api merge_sort_values (post_user_id "carol")
           (of_string "carol") w0 carol_timeline carol_user).
  - reflexivity.
  - vm_compute. reflexivity.
  - vm_compute. reflexivity.
  - vm_compute. reflexivity.
  - vm_compute. reflexivity.
Defined.

(** [eve] is not an account. *)
Lemma serve_api_error_witness :
  @serve sample_api merge_sort_values (post_user_id "eve") w0 =
    (emit w0 (fetch_errors []), ServerError not_found).
Proof.
  apply (@serve_api_error sample_api merge_sort_values (post_user_id "eve")
           (of_string "eve") w0 [] not_found).
  - reflexivity.
  - vm_compute. reflexivity.
  - vm_compute. reflexivity.
  - intros k. vm_compute. discriminate.
Defined.
Lemma serve_page_rows_qualify_witness :
  ∃ st page t, Ok page ∈ @user_timeline_pages sample_api (of_string "alice") true ∧ st ∈ page ∧
               is_reply st = false ∧ st_text st = Some t ∧
               ¬ substr rt_marker t ∧ st_id st = Some (tweet_id alice_row_1003).
Proof.
  apply (@serve_page_rows_qualify sample_api merge_sort_values (post_user_id "alice")
           (of_string "alice") w0 w0 alice_page alice_row_1003).
  - reflexivity.
  - vm_compute. reflexivity.
  - vm_compute. reflexivity.
  - right. by left.
Defined.

(** The sample accounts but [frank], each timeline at most one page. *)
Definition one_page_db : gmap pystr account :=
  {[ of_string "alice" := mk_account alice_user alice_timeline;
     of_string "bob" := mk_account bob_user bob_timeline;
     of_string "carol" := mk_account carol_user carol_timeline;
     of_string "dave" := mk_account dave_user dave_timeline ]}.

Lemma serve_cursor_refines_witness :
  @serve (cursor_api one_page_db) merge_sort_values (post_user_id "bob") w0 =
  @serve (account_api one_page_db) merge_sort_values (post_user_id "bob") w0.
Proof.
  apply serve_cursor_refines.
  repeat (apply map_Forall_insert_2;
            [split; [apply (bool_decide_unpack _); by vm_compute | apply no_gap_short; vm_compute; lia]|]).
  apply map_Forall_empty.
Defined.

(** Without the hypothesis the two instances differ: [frank]'s page of
    twenty replies stops the cursor, and his post is missing from the
    page the cursor instance renders. *)
Lemma serve_cursor_frank_differs :
  @serve (cursor_api sample_db) merge_sort_values (post_user_id "frank") w0 ≠
  @serve (account_api sample_db) merge_sort_values (post_user_id "frank") w0.
Proof. vm_compute. discriminate. Qed.

(** The profile request hits the rate limit; the timeline requests went
    through. *)
Definition rate_limited_api : TwitterAPI := {|
  user_timeline_pages := accounts_timeline sample_db;
  get_user := λ _, Exc (TweepError "Rate limit exceeded");
  user_timeline_no_replies := accounts_timeline_no_replies sample_db
|}.

Lemma serve_profile_error_witness :
  @serve rate_limited_api merge_sort_values (post_user_id "bob") w0 =
    (emit w0 (fetch_errors [bob_reshare; bob_no_counts; bob_split_marker; bob_plain]),
     ServerError (TweepError "Rate limit exceeded")).
Proof.
  apply (@serve_profile_error rate_limited_api merge_sort_values (post_user_id "bob")
           (of_string "bob") w0 [bob_reshare; bob_no_counts; bob_split_marker; bob_plain]
           [mk_row 2003 ((jan1 + 2 * hour) * 10 ^ 9) (strip_newlines (of_string "RT" ++ [newline] ++ of_string " @carol is here")) 4 2;
            mk_row 2001 ((jan1 + hour) * 10 ^ 9) (strip_newlines (of_string "good" ++ [newline] ++ of_string "morning")) 1 3]).
  - reflexivity.
  - vm_compute. reflexivity.
  - vm_compute. reflexivity.
  - vm_compute. reflexivity.
  - reflexivity.
  - intros k. discriminate.
Defined.

(** What the failing request printed: [bob]'s status without
    [retweet_count]. *)
Lemma serve_profile_error_output :
  (@serve rate_limited_api merge_sort_values (post_user_id "bob") w0).1 =
    {| stdout := [AttributeError "retweet_count"] |}.
Proof. vm_compute. reflexivity. Qed.
End HandlerSamples.
