(* ===== verification/Machine.v ===== *)
(** The handling of one request as a small-step machine.

    [Handler.serve] runs [index] (src/app.py, lines 38-55) as one
    function; here the same code is cut at the points where the program
    can be: the request routed to the view, the [for] loop of
    [get_tweets_df] with the statuses of the current page and the pages
    still to come (lines 59-74), the conversion of line 75, the grouping of
    line 45, the ranking of line 46, the profile request of line 49, and
    the response.  [hnext] computes the next state, [hstep] is the same
    relation by rules; standard output ([world]) is part of the state.

    Two lemmas check the machine against [serve]: it is deterministic and
    every run is finite and ends in a response ([hstep_live]), and a run
    from a request ends in exactly the response and output of [serve]
    ([hstep_serve]).  The theorem about the program: every step is a
    step, or a stutter, of the phase machine of the spec (section 4.5:
    AwaitingInput, Fetching, Aggregating, Rendering) under [phase_of]
    ([hstep_refines_spec]). *)

From S2P Require Import Prelude PyStr Calendar Pandas Tweepy Fetcher Aggregator Ranker Handler.

Inductive hstate :=
  | Received (req : request)
  | Looping (h : pystr) (items : list status) (pages : list (pyres (list status)))
            (df : list (row pydatetime))
  | Converting (h : pystr) (df : list (row pydatetime))
  | Grouping (h : pystr) (df : list (row timestamp))
  | Ranking (h : pystr) (df : list (row timestamp)) (grouped : list grouped_row)
  | Profiling (h : pystr) (df : list (row timestamp)) (grouped : list grouped_row)
              (sorted : list (row timestamp))
  | Responded (resp : response).

Section Machine.
Context `{TwitterAPI} `{SortValues}.

(** The next state of the handler, or [None] once it has responded. *)
Definition hnext (s : hstate * world) : option (hstate * world) :=
  let '(hs, w) := s in
  match hs with
  | Received req =>
      match method req with
      | GET | HEAD => Some (Responded (Render None), w)
      | POST =>
          match form req !! "user_id" with
          | None => Some (Responded (error_response (BadRequestKeyError "user_id")), w)
          | Some h => Some (Looping h [] (user_timeline_pages h true) [], w)
          end
      | OPTIONS => Some (Responded AllowedMethods, w)
      | PUT | DELETE => Some (Responded MethodNotAllowed, w)
      end
  | Looping h (st :: items) pages df =>
      match loop_body df st w with
      | (w', Ok df') => Some (Looping h items pages df', w')
      | (w', Exc e) => Some (Responded (error_response e), w')
      end
  | Looping h [] (Ok page :: pages) df => Some (Looping h page pages df, w)
  | Looping h [] (Exc e :: _) df => Some (Responded (error_response e), w)
  | Looping h [] [] df => Some (Converting h df, w)
  | Converting h df =>
      match to_datetime_column df with
      | Ok df' => Some (Grouping h df', w)
      | Exc e => Some (Responded (error_response e), w)
      end
  | Grouping h df => Some (Ranking h df (get_grouped_df df), w)
  | Ranking h df g => Some (Profiling h df g (get_sorted_df df), w)
  | Profiling h df g s =>
      match get_profile h with
      | Ok p => Some (Responded (Render (Some (mk_page p df g s))), w)
      | Exc e => Some (Responded (error_response e), w)
      end
  | Responded _ => None
  end.

Inductive hstep : hstate * world → hstate * world → Prop :=
  | hstep_get req w :
      method req = GET ∨ method req = HEAD → hstep (Received req, w) (Responded (Render None), w)
  | hstep_options req w :
      method req = OPTIONS → hstep (Received req, w) (Responded AllowedMethods, w)
  | hstep_no_field req w :
      method req = POST → form req !! "user_id" = None →
      hstep (Received req, w) (Responded (error_response (BadRequestKeyError "user_id")), w)
  | hstep_submit req h w :
      method req = POST → form req !! "user_id" = Some h →
      hstep (Received req, w) (Looping h [] (user_timeline_pages h true) [], w)
  | hstep_not_allowed req w :
      method req = PUT ∨ method req = DELETE →
      hstep (Received req, w) (Responded MethodNotAllowed, w)
  | hstep_item h st items pages df df' w w' :
      loop_body df st w = (w', Ok df') →
      hstep (Looping h (st :: items) pages df, w) (Looping h items pages df', w')
  | hstep_item_raise h st items pages df e w w' :
      loop_body df st w = (w', Exc e) →
      hstep (Looping h (st :: items) pages df, w) (Responded (error_response e), w')
  | hstep_page h page pages df w :
      hstep (Looping h [] (Ok page :: pages) df, w) (Looping h page pages df, w)
  | hstep_page_raise h e pages df w :
      hstep (Looping h [] (Exc e :: pages) df, w) (Responded (error_response e), w)
  | hstep_loop_done h df w :
      hstep (Looping h [] [] df, w) (Converting h df, w)
  | hstep_convert h df df' w :
      to_datetime_column df = Ok df' → hstep (Converting h df, w) (Grouping h df', w)
  | hstep_convert_raise h df e w :
      to_datetime_column df = Exc e →
      hstep (Converting h df, w) (Responded (error_response e), w)
  | hstep_group h df w :
      hstep (Grouping h df, w) (Ranking h df (get_grouped_df df), w)
  | hstep_rank h df g w :
      hstep (Ranking h df g, w) (Profiling h df g (get_sorted_df df), w)
  | hstep_profile h df g s p w :
      get_profile h = Ok p →
      hstep (Profiling h df g s, w) (Responded (Render (Some (mk_page p df g s))), w)
  | hstep_profile_raise h df g s e w :
      get_profile h = Exc e →
      hstep (Profiling h df g s, w) (Responded (error_response e), w).

#[local] Hint Constructors hstep : core.

Lemma hstep_hnext s s' : hstep s s' ↔ hnext s = Some s'.
Proof.
  split.
  - destruct 1; simpl; try destruct select (_ ∨ _);
      repeat match goal with H : _ = _ |- _ => rewrite H end; done.
  - destruct s as [[req|h [|st items] [|[page|e] pages] df|h df|h df|h df g|h df g s|r] w];
      simpl; try discriminate; repeat case_match; intros [= <-]; eauto with congruence.
Qed.

Lemma hstep_det : deterministic hstep.
Proof. intros x y z. rewrite !hstep_hnext. congruence. Qed.

Lemma Responded_nf r w : nf hstep (Responded r, w).
Proof. intros [s' Hs%hstep_hnext]. done. Qed.
End Machine.

(** ** Every run ends in a response *)

(** The work left in the pages the cursor has still to hand over. *)
Fixpoint pages_weight (pages : list (pyres (list status))) : nat :=
  match pages with
  | [] => 0
  | Ok page :: pages' => S (length page + pages_weight pages')
  | Exc _ :: _ => 1
  end.

Section Live.
Context `{TwitterAPI} `{SortValues}.

Definition hmeasure (s : hstate * world) : nat :=
  match s.1 with
  | Received req =>
      match method req, form req !! "user_id" with
      | POST, Some h => 6 + pages_weight (user_timeline_pages h true)
      | _, _ => 1
      end
  | Looping _ items pages _ => 5 + length items + pages_weight pages
  | Converting _ _ => 4
  | Grouping _ _ => 3
  | Ranking _ _ _ => 2
  | Profiling _ _ _ _ => 1
  | Responded _ => 0
  end%nat.

Lemma hstep_measure s s' : hstep s s' → (hmeasure s' < hmeasure s)%nat.
Proof.
  destruct 1; unfold hmeasure; simpl; try destruct select (_ ∨ _);
    repeat match goal with H : _ = _ |- _ => rewrite H end; simpl; lia.
Qed.

(** No state is stuck: the view either steps or has responded. *)
Lemma hstep_progress s : nf hstep s → ∃ r, s.1 = Responded r.
Proof.
  intros Hnf. destruct (hnext s) as [s'|] eqn:E.
  - destruct Hnf. exists s'. by apply hstep_hnext.
  - destruct s as [[] w]; simpl in E; repeat case_match; try done. by eexists.
Qed.

(** Liveness: from every state, every run of the handler is finite
    (the machine is strongly normalising), and the only states where it
    stops are responses: every request is answered. *)
Theorem hstep_live s : sn hstep s ∧ (nf hstep s → ∃ r, s.1 = Responded r).
Proof.
  split; [|apply hstep_progress].
  apply (sn_of_measure _ hmeasure), hstep_measure.
Qed.
End Live.

(** ** The machine computes [serve] *)

Section Runs.
Context `{TwitterAPI} `{SortValues}.

(** The loop over one page's statuses. *)
Lemma run_items h items pages df w :
  rtc hstep (Looping h items pages df, w)
            (Looping h [] pages (df ++ fetch_rows items), emit w (fetch_errors items)).
Proof.
  revert df w. induction items as [|st items IH]; intros df w.
  - by rewrite app_nil_r, emit_nil.
  - eapply rtc_l; [apply hstep_item, loop_body_spec|].
    etrans; [apply IH|]. rewrite emit_app, <- app_assoc.
    unfold fetch_rows, fetch_errors. simpl. by destruct (row_of st), (exc_of st).
Qed.

(** Where the loop over the cursor leaves the handler. *)
Definition loop_exit (h : pystr) (c : list status * option py_exc)
    (df : list (row pydatetime)) : hstate :=
  match c.2 with
  | None => Converting h (df ++ fetch_rows c.1)
  | Some e => Responded (error_response e)
  end.

Lemma run_pages h pages df w :
  rtc hstep (Looping h [] pages df, w)
            (loop_exit h (cursor_items pages) df, emit w (fetch_errors (cursor_items pages).1)).
Proof.
  revert df w. induction pages as [|[page|e] pages IH]; intros df w; simpl.
  - unfold loop_exit, fetch_rows, fetch_errors. simpl. rewrite app_nil_r, emit_nil.
    apply rtc_once. constructor.
  - eapply rtc_l; [constructor|]. etrans; [apply run_items|]. etrans; [apply IH|].
    unfold loop_exit, fetch_rows, fetch_errors.
    destruct (cursor_items pages) as [its err]. simpl.
    by rewrite emit_app, !omap_app, app_assoc.
  - unfold fetch_errors. simpl. rewrite emit_nil. apply rtc_once. constructor.
Qed.

(** From the converted frame to the response. *)
Definition render_of (h : pystr) (df : list (row timestamp)) : response :=
  match get_profile h with
  | Ok p => Render (Some (mk_page p df (get_grouped_df df) (get_sorted_df df)))
  | Exc e => error_response e
  end.

Lemma run_convert h df w :
  rtc hstep (Converting h df, w)
    (Responded (match to_datetime_column df with
                | Ok df' => render_of h df'
                | Exc e => error_response e
                end), w).
Proof.
  unfold render_of. destruct (to_datetime_column df) as [df'|e] eqn:Hc.
  - eapply rtc_l; [by constructor|]. eapply rtc_l; [constructor|].
    eapply rtc_l; [constructor|]. apply rtc_once.
    destruct (get_profile h) eqn:Hp; by constructor.
  - apply rtc_once. by constructor.
Qed.

Lemma run_serve req w : rtc hstep (Received req, w) (Responded (serve req w).2, (serve req w).1).
Proof.
  destruct (method req) eqn:Hm;
    try (unfold serve, index; rewrite Hm; apply rtc_once; constructor; by auto).
  destruct (form req !! "user_id") as [h|] eqn:Hf.
  - rewrite (serve_post req h w Hm Hf), get_tweets_df_eq.
    eapply rtc_l; [by constructor|]. etrans; [apply run_pages|].
    unfold loop_exit. destruct (cursor_items _) as [its [e|]]; simpl; [done|].
    etrans; [apply run_convert|]. unfold render_of.
    by destruct (to_datetime_column _), (get_profile h).
  - rewrite serve_missing_user_id by done. apply rtc_once. by constructor.
Qed.

(** A run that has responded has computed [serve]. *)
Lemma run_serve_inv req w w' resp :
  rtc hstep (Received req, w) (Responded resp, w') → serve req w = (w', resp).
Proof.
  intros Hrun. pose proof (run_serve req w) as Hs.
  pose proof (rtc_nf_unique _ hstep_det _ _ _ Hrun (Responded_nf _ _) Hs (Responded_nf _ _)) as E.
  destruct (serve req w). simpl in E. by simplify_eq.
Qed.

(** Refinement: the small-step machine implements [serve]: a run
    from a request reaches a response exactly when [serve] gives that
    response, with the same standard output. *)
Theorem hstep_serve req w w' resp :
  rtc hstep (Received req, w) (Responded resp, w') ↔ serve req w = (w', resp).
Proof.
  split; [apply run_serve_inv|].
  intros E. pose proof (run_serve req w) as Hs. by rewrite E in Hs.
Qed.

(** A step only appends to standard output, and takes the same step
    whatever was printed before. *)
Lemma hstep_frame s s' w w' :
  hstep (s, w) (s', w') → ∃ o, w' = emit w o ∧ ∀ w0, hstep (s, w0) (s', emit w0 o).
Proof.
  intros Hs. inversion Hs; subst;
    try (exists []; rewrite emit_nil; split; [done|]; intros w0; rewrite emit_nil; by constructor).
  - match goal with H : loop_body _ _ _ = _ |- _ => rewrite loop_body_spec in H end.
    simplify_eq. eexists. split; [done|]. intros w0. constructor. apply loop_body_spec.
  - match goal with H : loop_body _ _ _ = _ |- _ => rewrite loop_body_spec in H end. done.
Qed.
End Runs.

(** ** The phase machine of the spec (section 4.5)

    AwaitingInput, then on a form submission Fetching, Aggregating and
    Rendering, and back to AwaitingInput; a GET renders the empty page;
    an unrecovered error ends the request with a failed response. *)

Inductive phase := AwaitingInput | Fetching | Aggregating | Rendering.

Inductive spec_step : phase → phase → Prop :=
  | spec_submit : spec_step AwaitingInput Fetching
  | spec_fetched : spec_step Fetching Aggregating
  | spec_aggregated : spec_step Aggregating Rendering
  | spec_rendered : spec_step Rendering AwaitingInput
  | spec_initial_visit : spec_step AwaitingInput Rendering
  | spec_failed p : spec_step p AwaitingInput.

(** The phase a state of the code is in.  The profile is requested while
    the arguments of [render_template] are evaluated (line 49), so in the
    Rendering phase; a response other than a page is a failed request,
    after which the server awaits input again. *)
Definition phase_of (s : hstate) : phase :=
  match s with
  | Received _ => AwaitingInput
  | Looping _ _ _ _ | Converting _ _ => Fetching
  | Grouping _ _ | Ranking _ _ _ => Aggregating
  | Profiling _ _ _ _ | Responded (Render _) => Rendering
  | Responded _ => AwaitingInput
  end.

Lemma phase_of_error e : phase_of (Responded (error_response e)) = AwaitingInput.
Proof. by destruct e. Qed.

Section Refinement.
Context `{TwitterAPI} `{SortValues}.

(** C20. Refinement of the spec's state machine: every step of the code
    is a transition of the phase machine of section 4.5, or stays in its
    phase. *)
Theorem hstep_refines_spec s s' :
  hstep s s' → spec_step (phase_of s.1) (phase_of s'.1) ∨ phase_of s.1 = phase_of s'.1.
Proof. destruct 1; cbn [fst]; rewrite ?phase_of_error; simpl; auto using spec_step. Qed.
End Refinement.

Module MachineSamples.
Import Samples HandlerSamples.

Lemma hstep_refines_spec_witness :
  spec_step (phase_of (Received (post_user_id "alice")))
            (phase_of (Looping (of_string "alice") [] (accounts_timeline sample_db (of_string "alice") true) [])) ∨
  phase_of (Received (post_user_id "alice")) =
    phase_of (Looping (of_string "alice") [] (accounts_timeline sample_db (of_string "alice") true) []).
Proof.
  apply (@hstep_refines_spec sample_api merge_sort_values
           (Received (post_user_id "alice"), w0)
           (Looping (of_string "alice") [] (accounts_timeline sample_db (of_string "alice") true) [], w0)).
  apply (@hstep_submit sample_api merge_sort_values); reflexivity.
Defined.
End MachineSamples.
