(* ===== verification/Server.v ===== *)
(** The process: module start-up (src/app.py, lines 8-25), the start of
    the development server (lines 99-101), and the server answering a
    sequence of requests.

    Importing [app.py] reads the four credentials from the dict [CONFIG]
    of the module [config] (not part of the sources: it defines [CONFIG]
    or the import fails), builds the tweepy [OAuthHandler], sets its
    access token, wraps it in [tweepy.API] and creates the Flask object.
    Any exception there ends the import, before a request can be served.
    Run as a script, the module then calls [app.run], whose server
    accepts the requests in arrival order and handles each in a thread of
    its own (werkzeug's threaded server, Flask's default); the threads
    share the API client, read only, and standard output.

    The server is a relation [sstep] over the threads in flight, each a
    state of [Machine.hstep]: a step accepts the next request, advances
    any one thread, or sends the response of a finished thread.  The
    lemmas on it check the model, for every interleaving: each response
    is [serve]'s for its request, every request is answered once, every
    run is finite, and standard output is an interleaving of what each
    request prints alone ([server_output]); they follow from its shape
    (each thread carries its request, threads share only standard
    output) and hold for any handler.  The theorems about the program are
    those on start-up. *)

From S2P Require Import Prelude PyStr Calendar Pandas Tweepy Fetcher Aggregator Ranker Handler Machine.

(** ** Module start-up, lines 8-25 *)

(** The module [config]: [Some CONFIG], or [None] when the import fails. *)
Abbreviation config_module := (option (gmap string pystr)) (only parsing).

(** [from config import CONFIG], line 8. *)
Definition import_CONFIG (m : config_module) : pyres (gmap string pystr) :=
  match m with
  | Some c => Ok c
  | None => Exc (ImportError "config")
  end.

(** [d[k]] on a dict: [KeyError] when the key is absent. *)
Definition dict_getitem (d : gmap string pystr) (k : string) : pyres pystr :=
  match d !! k with
  | Some v => Ok v
  | None => Exc (KeyError k)
  end.

(** The keys read at lines 11-14, in the order of the source. *)
Definition credential_names : list string :=
  ["CONSUMER_KEY"; "CONSUMER_SECRET"; "ACCESS_TOKEN"; "ACCESS_SECRET"].

Record oauth_handler := mk_oauth {
  consumer_key : pystr;
  consumer_secret : pystr;
  access_token : option pystr;
  access_token_secret : option pystr
}.

(** [tweepy.OAuthHandler(CONSUMER_KEY, CONSUMER_SECRET)], line 17. *)
Definition OAuthHandler (ck cs : pystr) : oauth_handler := mk_oauth ck cs None None.

(** [auth.set_access_token(ACCESS_TOKEN, ACCESS_SECRET)], line 18: the
    handler is updated in place; nothing else refers to it yet. *)
Definition set_access_token (a : oauth_handler) (key secret : pystr) : oauth_handler :=
  mk_oauth (consumer_key a) (consumer_secret a) (Some key) (Some secret).

(** [tweepy.API(auth)], line 21. *)
Record api_client := mk_api { api_auth : oauth_handler }.

(** [Flask(__name__)], line 25. *)
Record flask_app := mk_flask { import_name : string }.

(** The module's globals after line 25. *)
Record globals := mk_globals {
  CONSUMER_KEY : pystr;
  CONSUMER_SECRET : pystr;
  ACCESS_TOKEN : pystr;
  ACCESS_SECRET : pystr;
  auth : oauth_handler;
  api : api_client;
  app : flask_app
}.

(** Lines 8-25, executed when the module [name] is imported. *)
Definition module_init (name : string) (m : config_module) : pyres globals :=
  CONFIG ← import_CONFIG m;
  ck ← dict_getitem CONFIG "CONSUMER_KEY";
  cs ← dict_getitem CONFIG "CONSUMER_SECRET";
  tok ← dict_getitem CONFIG "ACCESS_TOKEN";
  sec ← dict_getitem CONFIG "ACCESS_SECRET";
  let a := set_access_token (OAuthHandler ck cs) tok sec in
  Ok (mk_globals ck cs tok sec a (mk_api a) (mk_flask name)).

(** Lines 99-101: [app.run] is reached only when the module runs as the
    main script.  The outcome is the exception that ended start-up, or
    whether the server starts, with the client its handlers use. *)
Definition start (name : string) (m : config_module) : pyres (option api_client) :=
  g ← module_init name m;
  Ok (if bool_decide (name = "__main__") then Some (api g) else None).

(** ** Start-up *)

(** C21. Start-up fails fast: with a [CONFIG] dict, starting the module
    fails exactly when a credential is missing, and the exception is the
    [KeyError] of the first missing one in the order of lines 11-14; no
    server is started then. *)
Theorem start_missing_credential name c e :
  start name (Some c) = Exc e ↔
  ∃ pre k post, credential_names = pre ++ k :: post ∧
    Forall (λ k', is_Some (c !! k')) pre ∧ c !! k = None ∧ e = KeyError k.
Proof.
  unfold start, module_init, dict_getitem. simpl. split.
  - destruct (c !! "CONSUMER_KEY") eqn:E1; simpl;
      [destruct (c !! "CONSUMER_SECRET") eqn:E2; simpl;
       [destruct (c !! "ACCESS_TOKEN") eqn:E3; simpl;
        [destruct (c !! "ACCESS_SECRET") eqn:E4; simpl|]|]|]; intros [=]; subst.
    + exists ["CONSUMER_KEY"; "CONSUMER_SECRET"; "ACCESS_TOKEN"], "ACCESS_SECRET", [].
      by repeat constructor.
    + exists ["CONSUMER_KEY"; "CONSUMER_SECRET"], "ACCESS_TOKEN", ["ACCESS_SECRET"].
      by repeat constructor.
    + exists ["CONSUMER_KEY"], "CONSUMER_SECRET", ["ACCESS_TOKEN"; "ACCESS_SECRET"].
      by repeat constructor.
    + by exists [], "CONSUMER_KEY", ["CONSUMER_SECRET"; "ACCESS_TOKEN"; "ACCESS_SECRET"].
  - intros (pre & k & post & Hn & Hpre & Hk & ->). unfold credential_names in Hn.
    destruct pre as [|k1 [|k2 [|k3 [|k4 pre]]]]; simpl in Hn; simplify_eq;
      repeat match goal with
      | H : Forall _ (_ :: _) |- _ => apply Forall_cons in H as [[? ->] H]
      end; simpl; rewrite ?Hk; try done.
    destruct pre; discriminate.
Qed.

(** Without the module [config], the import of line 8 fails. *)
Lemma start_no_config name : start name None = Exc (ImportError "config").
Proof. done. Qed.

(** C22. A complete [CONFIG] builds the client from exactly its four
    credentials (consumer key and secret, then the access token set on
    the handler), and the server starts exactly when the module runs as
    the main script. *)
Theorem start_credentials name c ck cs tok sec :
  c !! "CONSUMER_KEY" = Some ck → c !! "CONSUMER_SECRET" = Some cs →
  c !! "ACCESS_TOKEN" = Some tok → c !! "ACCESS_SECRET" = Some sec →
  start name (Some c) =
    Ok (if bool_decide (name = "__main__")
        then Some (mk_api (mk_oauth ck cs (Some tok) (Some sec))) else None).
Proof.
  intros E1 E2 E3 E4. unfold start, module_init, dict_getitem. simpl.
  by rewrite E1, E2, E3, E4.
Qed.

(** ** The server, lines 100-101 *)

(** The requests accepted so far, the threads in flight with the number
    of the request each serves, the responses sent (in sending order),
    and standard output. *)
Record server := mk_server {
  accepted : nat;
  inflight : list (nat * hstate);
  answered : list (nat * response);
  out : world
}.

Definition server_init (w : world) : server := mk_server 0 [] [] w.

Section Server.
Context `{TwitterAPI} `{SortValues} (reqs : list request).

Inductive sstep : server → server → Prop :=
  | sstep_accept n th ans w req :
      reqs !! n = Some req →
      sstep (mk_server n th ans w) (mk_server (S n) (th ++ [(n, Received req)]) ans w)
  | sstep_run n th1 th2 ans w i s s' w' :
      hstep (s, w) (s', w') →
      sstep (mk_server n (th1 ++ (i, s) :: th2) ans w) (mk_server n (th1 ++ (i, s') :: th2) ans w')
  | sstep_send n th1 th2 ans w i r :
      sstep (mk_server n (th1 ++ (i, Responded r) :: th2) ans w)
            (mk_server n (th1 ++ th2) (ans ++ [(i, r)]) w).

(** What a thread has done so far is a run of its request, printing [o]
    whatever the other threads printed. *)
Definition thread_out (t : nat * hstate) (o : list py_exc) : Prop :=
  ∃ req, reqs !! t.1 = Some req ∧ ∀ w0, rtc hstep (Received req, w0) (t.2, emit w0 o).

Definition thread_ok (i : nat) (s : hstate) : Prop := ∃ o, thread_out (i, s) o.

Record server_inv (sv : server) : Prop := {
  inv_accepted : (accepted sv ≤ length reqs)%nat;
  inv_ids : (fst <$> inflight sv) ++ (fst <$> answered sv) ≡ₚ seq 0 (accepted sv);
  inv_threads : ∀ i s, (i, s) ∈ inflight sv → thread_ok i s;
  inv_answered : ∀ i r, (i, r) ∈ answered sv →
    ∃ req, reqs !! i = Some req ∧ ∀ w0, r = (serve req w0).2
}.

Lemma server_init_inv w : server_inv (server_init w).
Proof. split; simpl; [lia|done|set_solver..]. Qed.

Lemma thread_out_step i s s' o w w' :
  thread_out (i, s) o → hstep (s, w) (s', w') → ∃ o', w' = emit w o' ∧ thread_out (i, s') (o ++ o').
Proof.
  intros (req & Hreq & Hrun) (o' & -> & Hs)%hstep_frame.
  exists o'. split; [done|]. exists req. split; [done|]. intros w0.
  rewrite <- emit_app. eapply rtc_r; [apply Hrun|apply Hs].
Qed.

Lemma thread_out_answer i r o :
  thread_out (i, Responded r) o → ∃ req, reqs !! i = Some req ∧ ∀ w0, serve req w0 = (emit w0 o, r).
Proof.
  intros (req & Hreq & Hrun). exists req. split; [done|]. intros w0.
  by rewrite (run_serve_inv _ _ _ _ (Hrun w0)).
Qed.

Lemma thread_ok_step i s s' w w' : thread_ok i s → hstep (s, w) (s', w') → thread_ok i s'.
Proof. intros [o Ho] Hs. destruct (thread_out_step _ _ _ _ _ _ Ho Hs) as (o' & _ & ?). by eexists. Qed.

Lemma thread_ok_answer i r :
  thread_ok i (Responded r) → ∃ req, reqs !! i = Some req ∧ ∀ w0, r = (serve req w0).2.
Proof.
  intros [o (req & Hreq & Hs)%thread_out_answer]. exists req. split; [done|].
  intros w0. by rewrite Hs.
Qed.

Lemma sstep_inv sv sv' : server_inv sv → sstep sv sv' → server_inv sv'.
Proof.
  intros [Hn Hids Hth Hans] Hs. destruct Hs as [n th ans w req Hreq|n th1 th2 ans w i s s' w' Hs|
                                              n th1 th2 ans w i r];
    cbn [accepted inflight answered out] in *.
  - split; cbn [accepted inflight answered out].
    + apply lookup_lt_Some in Hreq. lia.
    + rewrite seq_S, <- Hids, !fmap_app. simpl.
      by rewrite <- !app_assoc, (Permutation_app_comm [n]).
    + intros i s [?|[= -> ->]%list_elem_of_singleton]%elem_of_app; [by apply Hth|].
      exists [], req. split; [done|]. intros w0. by rewrite emit_nil.
    + done.
  - split; cbn [accepted inflight answered out];
      [done| |intros j t; rewrite elem_of_app, elem_of_cons..|done].
    + by rewrite !fmap_app in Hids |- *.
    + intros [?|[[= -> ->]|?]]; [apply Hth; set_solver| |apply Hth; set_solver].
      eapply thread_ok_step; [apply (Hth i s); set_solver|exact Hs].
  - split; cbn [accepted inflight answered out]; [done| | |].
    + rewrite <- Hids, !fmap_app. simpl.
      rewrite (Permutation_app_comm _ [i]). simpl. by rewrite <- !Permutation_middle.
    + intros j t Hj. apply Hth. set_solver.
    + intros j t [?|[= -> ->]%list_elem_of_singleton]%elem_of_app; [by apply Hans|].
      apply thread_ok_answer, Hth. set_solver.
Qed.

Lemma server_reachable_inv w sv : rtc sstep (server_init w) sv → server_inv sv.
Proof.
  intros Hrun. cut (∀ sv0, rtc sstep sv0 sv → server_inv sv0 → server_inv sv);
    [intros Hc; apply (Hc _ Hrun), server_init_inv|].
  clear Hrun. intros sv0 Hrun. induction Hrun as [|x y z Hxy _ IH]; [done|].
  intros Hx. apply IH. by eapply sstep_inv.
Qed.
End Server.

(** ** Every request is answered, with its own response *)

Section ServerLive.
Context `{TwitterAPI} `{SortValues} (reqs : list request).

Definition thread_weight (s : hstate) : nat := S (hmeasure (s, {| stdout := [] |})).

Definition server_measure (sv : server) : nat :=
  sum_list_with (λ t, thread_weight t.2) (inflight sv) +
  sum_list_with (λ req, S (thread_weight (Received req))) (drop (accepted sv) reqs).

Lemma sstep_measure sv sv' : sstep reqs sv sv' → (server_measure sv' < server_measure sv)%nat.
Proof.
  unfold server_measure.
  destruct 1 as [n th ans w req Hreq|n th1 th2 ans w i s s' w' Hs|n th1 th2 ans w i r];
    cbn [accepted inflight answered]; rewrite ?sum_list_with_app; simpl.
  - rewrite (drop_S _ _ _ Hreq). simpl. lia.
  - pose proof (hstep_measure _ _ Hs). unfold thread_weight, hmeasure in *. simpl in *. lia.
  - unfold thread_weight. lia.
Qed.

(** A server with nothing left to do has accepted every request and has
    no thread in flight. *)
Lemma sstep_progress sv :
  nf (sstep reqs) sv → inflight sv = [] ∧ (length reqs ≤ accepted sv)%nat.
Proof.
  destruct sv as [n th ans w]. cbn [accepted inflight]. intros Hnf. split.
  - destruct th as [|[i s] th]; [done|]. destruct Hnf.
    destruct (hnext (s, w)) as [[s' w']|] eqn:E.
    + eexists. apply (sstep_run _ _ [] th). by apply hstep_hnext.
    + destruct (hstep_progress (s, w)) as [r Hr].
      { intros [s' Hs%hstep_hnext]. congruence. }
      simpl in Hr. subst s.
      eexists. apply (sstep_send _ _ [] th).
  - destruct (decide (length reqs ≤ n)%nat) as [|Hlt]; [done|].
    destruct (lookup_lt_is_Some_2 reqs n) as [req Hreq]; [lia|].
    destruct Hnf. eexists. by apply sstep_accept.
Qed.

(** Termination of the server: whatever the interleaving of the
    threads, every run of the server on a finite sequence of requests is
    finite. *)
Theorem server_sn sv : sn (sstep reqs) sv.
Proof. apply (sn_of_measure _ server_measure), sstep_measure. Qed.

(** No cross-request mixing: under any interleaving, every response
    the server has sent answers an accepted request, and is the response
    [serve] gives to that request alone. *)
Theorem server_answer_correct w sv i r :
  rtc (sstep reqs) (server_init w) sv → (i, r) ∈ answered sv →
  ∃ req, reqs !! i = Some req ∧ r = (serve req w).2.
Proof.
  intros Hrun Hi. destruct (inv_answered _ _ (server_reachable_inv _ _ _ Hrun) i r Hi)
    as (req & Hreq & Hr).
  exists req. split; [done|apply Hr].
Qed.

Lemma answered_ids w sv :
  rtc (sstep reqs) (server_init w) sv → nf (sstep reqs) sv →
  fst <$> answered sv ≡ₚ seq 0 (length reqs).
Proof.
  intros Hrun Hnf. destruct (server_reachable_inv _ _ _ Hrun) as [Hn Hids _ _].
  destruct (sstep_progress _ Hnf) as [Hth Hacc].
  rewrite Hth in Hids. simpl in Hids. rewrite Hids.
  by replace (length reqs) with (accepted sv) by lia.
Qed.

(** Completeness: when the server has nothing left to do, it has
    sent exactly one response per request, the response [serve] gives to
    that request, whatever the interleaving. *)
Theorem server_answers_all w sv :
  rtc (sstep reqs) (server_init w) sv → nf (sstep reqs) sv →
  answered sv ≡ₚ imap (λ i req, (i, (serve req w).2)) reqs.
Proof.
  intros Hrun Hnf. pose proof (answered_ids _ _ Hrun Hnf) as Hids.
  pose proof (inv_answered _ _ (server_reachable_inv _ _ _ Hrun)) as Hans.
  apply NoDup_Permutation.
  - apply (NoDup_fmap_1 fst). rewrite Hids. apply NoDup_seq.
  - apply (NoDup_fmap_1 fst). rewrite imap_pair_fst. apply NoDup_seq.
  - intros [i r]. rewrite elem_of_imap_pair. split.
    + intros Hi. destruct (Hans i r Hi) as (req & Hreq & Hr). exists req. split; [done|apply Hr].
    + intros (req & Hreq & ->).
      assert (i ∈ fst <$> answered sv) as ([j r'] & Hj & Hin)%list_elem_of_fmap.
      { rewrite Hids, elem_of_seq. apply lookup_lt_Some in Hreq. lia. }
      simpl in Hj. subst j. destruct (Hans i r' Hin) as (req' & Hreq' & Hr').
      rewrite Hreq in Hreq'. simplify_eq. by rewrite <- (Hr' w).
Qed.
End ServerLive.

(** ** What the server prints *)

Section ServerOutput.
Context `{TwitterAPI} `{SortValues} (reqs : list request).

(** What handling [req] alone prints. *)
Definition serve_output (req : request) : list py_exc := stdout (serve req {| stdout := [] |}).1.

Definition request_out (i : nat) : list py_exc :=
  match reqs !! i with Some req => serve_output req | None => [] end.

Definition answer_out (a : nat * response) : list py_exc := request_out a.1.

(** Standard output holds what was printed before the server started,
    the lines each thread in flight has printed so far, and the whole
    output of each request answered, interleaved. *)
Definition out_inv (w : world) (sv : server) : Prop :=
  ∃ os, Forall2 (thread_out reqs) (inflight sv) os ∧
        stdout (out sv) ≡ₚ stdout w ++ mjoin os ++ mjoin (answer_out <$> answered sv).

Lemma sstep_out_inv w sv sv' : out_inv w sv → sstep reqs sv sv' → out_inv w sv'.
Proof.
  intros (os & Hos & Hout) Hs.
  destruct Hs as [n th ans ww req Hreq|n th1 th2 ans ww i s s' w' Hs|n th1 th2 ans ww i r];
    unfold out_inv; cbn [inflight answered out] in *.
  - exists (os ++ [[]]). split.
    + apply Forall2_app; [done|]. constructor; [|done].
      exists req. split; [done|]. intros w0. by rewrite emit_nil.
    + by rewrite Hout, join_app, app_nil_r.
  - apply Forall2_app_inv_l in Hos as (os1 & os' & Hos1 & (o & os2 & Ho & Hos2 & ->)%Forall2_cons_inv_l & ->).
    destruct (thread_out_step _ _ _ _ _ _ _ Ho Hs) as (o' & -> & Ho').
    exists (os1 ++ (o ++ o') :: os2). split; [by apply Forall2_app; [|constructor]|].
    simpl. rewrite Hout, !join_app. simpl. solve_Permutation.
  - apply Forall2_app_inv_l in Hos as (os1 & os' & Hos1 & (o & os2 & Ho & Hos2 & ->)%Forall2_cons_inv_l & ->).
    destruct (thread_out_answer _ _ _ _ Ho) as (req & Hreq & Hserve).
    exists (os1 ++ os2). split; [by apply Forall2_app|].
    assert (answer_out (i, r) = o) as Ha.
    { unfold answer_out, request_out, serve_output. simpl. by rewrite Hreq, Hserve. }
    rewrite Hout, fmap_app, !join_app. simpl. rewrite Ha, app_nil_r. solve_Permutation.
Qed.

Lemma server_out_inv w sv : rtc (sstep reqs) (server_init w) sv → out_inv w sv.
Proof.
  intros Hrun. cut (∀ sv0, rtc (sstep reqs) sv0 sv → out_inv w sv0 → out_inv w sv).
  { intros Hc. apply (Hc _ Hrun). exists []. simpl. split; [done|]. by rewrite app_nil_r. }
  clear Hrun. intros sv0 Hrun. induction Hrun as [|x y z Hxy _ IH]; [done|].
  intros Hx. apply IH. by eapply sstep_out_inv.
Qed.

(** Output of the threaded server: once it has nothing left to do,
    standard output holds, interleaved in some order, exactly the lines
    each request prints when handled alone: nothing is lost or
    duplicated by the concurrency, only the order of lines may mix. *)
Theorem server_output w sv :
  rtc (sstep reqs) (server_init w) sv → nf (sstep reqs) sv →
  stdout (out sv) ≡ₚ stdout w ++ mjoin (serve_output <$> reqs).
Proof.
  intros Hrun Hnf. destruct (server_out_inv _ _ Hrun) as (os & Hos & Hout).
  destruct (sstep_progress _ _ Hnf) as [Hth _]. rewrite Hth in Hos.
  apply Forall2_nil_inv_l in Hos as ->. rewrite Hout. simpl. f_equiv.
  change answer_out with (request_out ∘ (@fst nat response)). rewrite list_fmap_compose.
  rewrite (answered_ids reqs _ _ Hrun Hnf), <- imap_seq_0, <- imap_const.
  f_equiv. rewrite (imap_ext _ (const serve_output)); [done|].
  intros j x Hx. unfold request_out. by rewrite Hx.
Qed.
End ServerOutput.

(** ** One schedule: the server without threads

    [app.run(threaded=False)] serves one request at a time: it runs the
    oldest thread to its response and sends it before accepting the next
    request.  This schedule is one interleaving of [sstep], and it runs
    on concrete requests. *)

Section Schedule.
Context `{TwitterAPI} `{SortValues} (reqs : list request).

Definition sched_next (sv : server) : option server :=
  match inflight sv with
  | (i, Responded r) :: th => Some (mk_server (accepted sv) th (answered sv ++ [(i, r)]) (out sv))
  | (i, s) :: th =>
      match hnext (s, out sv) with
      | Some (s', w') => Some (mk_server (accepted sv) ((i, s') :: th) (answered sv) w')
      | None => None
      end
  | [] =>
      match reqs !! accepted sv with
      | Some req => Some (mk_server (S (accepted sv)) [(accepted sv, Received req)] (answered sv) (out sv))
      | None => None
      end
  end.

Fixpoint srun (fuel : nat) (sv : server) : server :=
  match fuel with
  | O => sv
  | S fuel' => match sched_next sv with Some sv' => srun fuel' sv' | None => sv end
  end.

Lemma sched_next_step sv sv' : sched_next sv = Some sv' → sstep reqs sv sv'.
Proof.
  destruct sv as [n th ans w]. unfold sched_next. cbn [accepted inflight answered out].
  destruct th as [|[i s] th].
  - destruct (reqs !! n) eqn:E; intros [= <-]. by apply (sstep_accept _ _ []).
  - destruct s; try (destruct (hnext _) as [[s' w']|] eqn:E; intros [= <-];
                     apply (sstep_run _ _ []); by apply hstep_hnext).
    intros [= <-]. apply (sstep_send _ _ []).
Qed.

Lemma srun_rtc fuel sv : rtc (sstep reqs) sv (srun fuel sv).
Proof.
  revert sv. induction fuel as [|fuel IH]; intros sv; [done|]. simpl.
  destruct (sched_next sv) eqn:E; [|done]. eapply rtc_l; [by apply sched_next_step|apply IH].
Qed.

Lemma hnext_None s w : hnext (s, w) = None → ∃ r, s = Responded r.
Proof.
  intros E. destruct (hstep_progress (s, w)) as [r Hr]; [|by exists r].
  intros [? Hs%hstep_hnext]. congruence.
Qed.

Lemma sched_next_nf sv : sched_next sv = None → nf (sstep reqs) sv.
Proof.
  destruct sv as [n th ans w]. unfold sched_next. cbn [accepted inflight answered out].
  intros E. assert (th = []) as ->.
  { destruct th as [|[j t] th]; [done|]. exfalso.
    destruct t; try done; destruct (hnext _) as [[]|] eqn:E'; try done;
      by destruct (hnext_None _ _ E'). }
  intros [sv' Hs]. inversion Hs as [? ? ? ? req Hreq| |]; subst.
  - by rewrite Hreq in E.
  - by destruct th1.
  - by destruct th1.
Qed.
End Schedule.

(** ** Runs on the sample accounts *)

Module ServerSamples.
Import Samples HandlerSamples.

Definition sample_config : gmap string pystr :=
  {[ "CONSUMER_KEY" := of_string "ck"; "CONSUMER_SECRET" := of_string "cs";
     "ACCESS_TOKEN" := of_string "at"; "ACCESS_SECRET" := of_string "as" ]}.

Lemma start_credentials_witness :
  start "__main__" (Some sample_config) =
    Ok (if bool_decide ("__main__" = "__main__")
        then Some (mk_api (mk_oauth (of_string "ck") (of_string "cs")
                                    (Some (of_string "at")) (Some (of_string "as"))))
        else None).
Proof. apply start_credentials; vm_compute; reflexivity. Defined.

(** A [CONFIG] without the access secret. *)
Lemma start_without_secret :
  start "__main__" (Some (delete "ACCESS_SECRET" sample_config)) = Exc (KeyError "ACCESS_SECRET").
Proof. vm_compute. reflexivity. Qed.

(** [alice]'s page, the empty page, an unknown handle and [bob]'s page,
    served one after the other. *)
Definition sample_reqs : list request :=
  [post_user_id "alice"; mk_request GET ∅; post_user_id "eve"; post_user_id "bob"].

Definition sample_run : server :=
  @srun sample_api merge_sort_values sample_reqs 100 (server_init w0).

Lemma sample_run_answered :
  (λ a, match a.2 with Render (Some _) => (a.1, 200%nat) | Render None => (a.1, 200%nat)
                     | BadRequest => (a.1, 400%nat) | _ => (a.1, 500%nat) end) <$> answered sample_run =
    [(0, 200); (1, 200); (2, 500); (3, 200)]%nat.
Proof. vm_compute. reflexivity. Qed.

Lemma server_answer_correct_sample :
  ∃ req, sample_reqs !! 1%nat = Some req ∧ Render None = (@serve sample_api merge_sort_values req w0).2.
Proof.
  apply (@server_answer_correct sample_api merge_sort_values sample_reqs w0 sample_run 1 (Render None)).
  - apply srun_rtc.
  - vm_compute. right. left.
Qed.

Lemma server_answers_all_sample :
  answered sample_run ≡ₚ
    imap (λ i req, (i, (@serve sample_api merge_sort_values req w0).2)) sample_reqs.
Proof.
  apply (@server_answers_all sample_api merge_sort_values sample_reqs w0 sample_run).
  - apply srun_rtc.
  - apply sched_next_nf. vm_compute. reflexivity.
Qed.
(** [bob]'s status without [retweet_count] is printed and skipped. *)
Lemma sample_run_output : stdout (out sample_run) = [AttributeError "retweet_count"].
Proof. vm_compute. reflexivity. Qed.

Lemma server_output_sample :
  stdout (out sample_run) ≡ₚ
    stdout w0 ++ mjoin (@serve_output sample_api merge_sort_values <$> sample_reqs).
Proof.
  apply (@server_output sample_api merge_sort_values sample_reqs w0 sample_run).
  - apply srun_rtc.
  - apply sched_next_nf. vm_compute. reflexivity.
Qed.
End ServerSamples.
